(** * Wind-energy dashboard (app1.py): the data-reconciliation step

    A shallow embedding of [src/app1.py]: the loader [cargar_datos], the
    per-department count with its left merge onto the regions, the per-year
    count, and the branch that chooses between the dashboard and the error
    panel.  Data frames are ordered lists of rows, a missing cell (NaN) is
    [None], Python integers are [Z], and a Python [str] is the list of its
    Unicode code points. *)

From Stdlib Require Import List ZArith NArith Bool Lia Ascii String Sorted
  Permutation.
Import ListNotations.
Local Open Scope Z_scope.

(* ================================================================== *)
(** ** Python strings *)
(* ================================================================== *)

Definition codepoint := N.
Definition pystr := list codepoint.

(** [str.__eq__]: two strings are equal when their code points are. *)
Fixpoint pystr_eqb (a b : pystr) : bool :=
  match a, b with
  | [], [] => true
  | x :: a', y :: b' => N.eqb x y && pystr_eqb a' b'
  | _, _ => false
  end.

(** An ASCII literal as a Python string (one code point per byte). *)
Fixpoint py (s : string) : pystr :=
  match s with
  | EmptyString => []
  | String c s' => N_of_ascii c :: py s'
  end.

(** [str.isspace] on one code point: CPython's [_PyUnicode_IsWhitespace]. *)
Definition isspace (c : codepoint) : bool :=
  ((9 <=? c) && (c <=? 13) || (28 <=? c) && (c <=? 32)
   || (c =? 133) || (c =? 160) || (c =? 5760)
   || (8192 <=? c) && (c <=? 8202)
   || (c =? 8232) || (c =? 8233) || (c =? 8239) || (c =? 8287)
   || (c =? 12288))%N.

(** The full upper-case mapping of one code point is a table of the Python
    runtime (the Unicode character database), not of this repository: it is
    a parameter of the development.  A code point may map to several
    ([ß] gives [SS]). *)
Class CaseMapping := { upper_char : codepoint -> pystr }.

(** The two facts about that table the normalisation relies on: what
    upper-casing produces is already upper case, and white space has no
    case. *)
Class CaseMappingLaws (M : CaseMapping) : Prop := {
  upper_char_fixed : forall c d, In d (upper_char c) -> upper_char d = [d];
  upper_char_space : forall c, isspace c = true -> upper_char c = [c]
}.

(** The table restricted to Basic Latin and Latin-1 Supplement
    (U+0000..U+00FF), as CPython has it there; other code points are left
    as they are. *)
Definition latin1_upper_char (c : codepoint) : pystr :=
  (if (97 <=? c) && (c <=? 122) then [c - 32]
   else if c =? 181 then [924]
   else if c =? 223 then [83; 83]
   else if (224 <=? c) && (c <=? 254) && negb (c =? 247) then [c - 32]
   else if c =? 255 then [376]
   else [c])%N.

#[export] Instance latin1 : CaseMapping := {| upper_char := latin1_upper_char |}.

Section Normalisation.
Context {M : CaseMapping}.

(** [str.upper]. *)
Definition upper (s : pystr) : pystr := flat_map upper_char s.

(** [str.lstrip()], [str.rstrip()] and [str.strip()] with no argument:
    white space is removed from the left end, then from the right end. *)
Fixpoint lstrip (s : pystr) : pystr :=
  match s with
  | [] => []
  | c :: s' => if isspace c then lstrip s' else s
  end.

Definition rstrip (s : pystr) : pystr := rev (lstrip (rev s)).

Definition strip (s : pystr) : pystr := rstrip (lstrip s).

(** [.str.upper().str.strip()] on one cell (lines 46 and 47). *)
Definition normalize (s : pystr) : pystr := strip (upper s).

(** Two strings that differ only in case: position by position, the two
    code points have the same upper case. *)
Definition same_up_to_case (s t : pystr) : Prop :=
  Forall2 (fun a b => upper_char a = upper_char b) s t.

(** A string of white space only. *)
Definition blank (s : pystr) : bool := forallb isspace s.
End Normalisation.

(* ================================================================== *)
(** ** Data frames *)
(* ================================================================== *)

(** Geometries are never inspected by the script; the only operation on
    them is geopandas' reprojection [to_crs(epsg=...)] (line 61). *)
Class GeoBackend := {
  Geometry : Type;
  to_crs : Z -> Geometry -> Geometry
}.

(** Polygons as vertex lists, reprojection left as the identity: the
    backend the worked examples run on. *)
#[export] Instance plain_geo : GeoBackend :=
  {| Geometry := list (Z * Z); to_crs := fun _ g => g |}.

(** [len(...)]. *)
Definition len {A : Type} (l : list A) : Z := Z.of_nat (List.length l).

(** [Series.dropna()]: the cells that are present, in order. *)
Fixpoint dropna {A : Type} (col : list (option A)) : list A :=
  match col with
  | [] => []
  | Some a :: col' => a :: dropna col'
  | None :: col' => dropna col'
  end.

(** [Series.fillna(v)] on one cell. *)
Definition fillna {A : Type} (v : A) (cell : option A) : A :=
  match cell with Some a => a | None => v end.

(** One row of the spreadsheet: the two columns the script reads. *)
Record Proyecto := mkProyecto {
  Departamento : option pystr;
  Año_de_publicación : option Z
}.
Definition DataFrame := list Proyecto.

(** *** [Series.value_counts()] *)

(** Count one more occurrence of [k]; a new key goes last, so keys stay in
    order of first appearance. *)
Fixpoint bump (k : pystr) (t : list (pystr * Z)) : list (pystr * Z) :=
  match t with
  | [] => [(k, 1)]
  | (k', n) :: t' =>
      if pystr_eqb k k' then (k', n + 1) :: t' else (k', n) :: bump k t'
  end.

Definition tally (col : list pystr) : list (pystr * Z) :=
  fold_left (fun t k => bump k t) col [].

(** Sort by count, largest first.  Rows with equal counts keep their
    order here; pandas promises no order among them, and no result below
    depends on it. *)
Fixpoint insert_desc (x : pystr * Z) (t : list (pystr * Z)) : list (pystr * Z) :=
  match t with
  | [] => [x]
  | y :: t' => if snd y <=? snd x then x :: t else y :: insert_desc x t'
  end.

Definition sort_desc (t : list (pystr * Z)) : list (pystr * Z) :=
  fold_right insert_desc [] t.

(** [value_counts().reset_index()]: one row (value, count) per distinct
    value of the column, missing cells dropped, most frequent first. *)
Definition value_counts (col : list (option pystr)) : list (pystr * Z) :=
  sort_desc (tally (dropna col)).

(** *** [groupby(key).size()] and [sort_values(key)] *)

(** Count one more row of year [y] in a table kept in increasing order of
    year. *)
Fixpoint group_insert (y : Z) (t : list (Z * Z)) : list (Z * Z) :=
  match t with
  | [] => [(y, 1)]
  | (k, n) :: t' =>
      if y <? k then (y, 1) :: t
      else if y =? k then (k, n + 1) :: t'
      else (k, n) :: group_insert y t'
  end.

(** [groupby(...).size().reset_index(...)]: one row (key, group size) per
    distinct key, keys in increasing order; a row whose key is missing
    belongs to no group. *)
Definition groupby_size (col : list (option Z)) : list (Z * Z) :=
  fold_left (fun t cell => match cell with
                           | Some y => group_insert y t
                           | None => t
                           end) col [].

Fixpoint insert_asc (x : Z * Z) (t : list (Z * Z)) : list (Z * Z) :=
  match t with
  | [] => [x]
  | y :: t' => if fst x <=? fst y then x :: t else y :: insert_asc x t'
  end.

(** [sort_values(key)], ascending. *)
Definition sort_values (t : list (Z * Z)) : list (Z * Z) :=
  fold_right insert_asc [] t.

(** Lines 98 to 100. *)
Definition df_excel_clean (df_excel : DataFrame) : DataFrame :=
  filter (fun p => match Año_de_publicación p with
                   | Some _ => true
                   | None => false
                   end) df_excel.

Definition proyectos_por_año (df_excel : DataFrame) : list (Z * Z) :=
  sort_values (groupby_size (map Año_de_publicación (df_excel_clean df_excel))).

Section Reconciliation.
Context {M : CaseMapping} {G : GeoBackend}.

(** One feature of the boundary file. *)
Record Region := mkRegion {
  NOMBRE_DPT : pystr;
  geometry : Geometry
}.
Definition GeoDataFrame := list Region.

(** One row of the merged frame: the columns of the left frame, then those
    of the right one.  [C] is the type of the count cell: [option Z] as
    the merge leaves it, [Z] once [fillna(0)] has run. *)
Record MergedRow (C : Type) := mkMerged {
  m_NOMBRE_DPT : pystr;
  m_geometry : Geometry;
  m_Departamento : option pystr;
  Cantidad_Proyectos : C
}.
Arguments mkMerged {C}.
Arguments m_NOMBRE_DPT {C}.
Arguments m_geometry {C}.
Arguments m_Departamento {C}.
Arguments Cantidad_Proyectos {C}.

(** Lines 41 to 46: the counts per raw department string, then the key
    column upper-cased and stripped in place.  This is the table once
    line 46 has run; on a sheet with rows and no department it raises
    instead ([linea_46] below). *)
Definition proyectos_por_depto (df_excel : DataFrame) : list (pystr * Z) :=
  map (fun row => (normalize (fst row), snd row))
      (value_counts (map Departamento df_excel)).

(** Line 47: the name column of [gdf] is overwritten with its normalised
    form. *)
Definition normalizar_NOMBRE_DPT (gdf : GeoDataFrame) : GeoDataFrame :=
  map (fun r => {| NOMBRE_DPT := normalize (NOMBRE_DPT r);
                   geometry := geometry r |}) gdf.

(** [left.merge(right, left_on=..., right_on=..., how='left')]: the left
    rows in order, each once per right row with an equal key (in the order
    of the right frame), or once with missing right cells when no key is
    equal. *)
Definition merge_row (right : list (pystr * Z)) (r : Region)
  : list (MergedRow (option Z)) :=
  match filter (fun row => pystr_eqb (NOMBRE_DPT r) (fst row)) right with
  | [] => [mkMerged (NOMBRE_DPT r) (geometry r) None None]
  | hits => map (fun row => mkMerged (NOMBRE_DPT r) (geometry r)
                                     (Some (fst row)) (Some (snd row))) hits
  end.

Definition merge_left (left : GeoDataFrame) (right : list (pystr * Z))
  : list (MergedRow (option Z)) :=
  flat_map (merge_row right) left.

(** Line 58. *)
Definition fillna_Cantidad (row : MergedRow (option Z)) : MergedRow Z :=
  mkMerged (m_NOMBRE_DPT row) (m_geometry row) (m_Departamento row)
           (fillna 0 (Cantidad_Proyectos row)).

(** Line 61. *)
Definition to_crs_row (epsg : Z) (row : MergedRow Z) : MergedRow Z :=
  mkMerged (m_NOMBRE_DPT row) (to_crs epsg (m_geometry row))
           (m_Departamento row) (Cantidad_Proyectos row).

(** Lines 41 to 61: the value of [gdf_merged] when the charts are drawn.
    On a boundary frame without features line 47 raises and there is no
    such value ([linea_47] below). *)
Definition gdf_merged (gdf : GeoDataFrame) (df_excel : DataFrame)
  : list (MergedRow Z) :=
  map (to_crs_row 4326)
      (map fillna_Cantidad
           (merge_left (normalizar_NOMBRE_DPT gdf) (proyectos_por_depto df_excel))).

(** The count column of a merged frame, and its total. *)
Definition counts (rows : list (MergedRow Z)) : list Z :=
  map Cantidad_Proyectos rows.

Definition sum_Z (l : list Z) : Z := fold_right Z.add 0 l.
End Reconciliation.

Arguments mkMerged {G C}.
Arguments m_NOMBRE_DPT {G C}.
Arguments m_geometry {G C}.
Arguments m_Departamento {G C}.
Arguments Cantidad_Proyectos {G C}.

(* ================================================================== *)
(** ** The other values the page shows *)
(* ================================================================== *)

(** Line 145: [proyectos_por_depto.iloc[0] if len(proyectos_por_depto) > 0
    else None]. *)
Definition dept_max (t : list (pystr * Z)) : option (pystr * Z) :=
  match t with
  | [] => None
  | row :: _ => Some row
  end.

(** [str.title()] is a function of the Python runtime; the two places
    that call it only relabel keys with it, so it is a parameter. *)
Class TitleCase := { title : pystr -> pystr }.

Section Resumen.
Context {T : TitleCase}.

(** Line 147: the label of the fourth metric, when there is one. *)
Definition departamento_con_mas_proyectos (t : list (pystr * Z)) : option pystr :=
  match dept_max t with
  | Some row => Some (title (fst row))
  | None => None
  end.

(** Lines 153 to 155: a copy of the count table with title-cased keys,
    sorted by count, largest first. *)
Definition tabla_resumen (t : list (pystr * Z)) : list (pystr * Z) :=
  sort_desc (map (fun row => (title (fst row), snd row)) t).
End Resumen.

(** [str.title()] on Basic Latin and Latin-1 Supplement, as CPython
    computes it: a code point that follows a cased one is lower-cased,
    any other is title-cased; code points above U+00FF are left as they
    are. *)
Definition latin1_is_cased (c : codepoint) : bool :=
  ((65 <=? c) && (c <=? 90) || (97 <=? c) && (c <=? 122)
   || (c =? 170) || (c =? 181) || (c =? 186)
   || (192 <=? c) && (c <=? 214) || (216 <=? c) && (c <=? 246)
   || (248 <=? c) && (c <=? 255))%N.

Definition latin1_lower_char (c : codepoint) : pystr :=
  (if (65 <=? c) && (c <=? 90) then [c + 32]
   else if (192 <=? c) && (c <=? 222) && negb (c =? 215) then [c + 32]
   else [c])%N.

Definition latin1_title_char (c : codepoint) : pystr :=
  (if c =? 223 then [83; 115] else latin1_upper_char c)%N.

Fixpoint latin1_title_from (previous_is_cased : bool) (s : pystr) : pystr :=
  match s with
  | [] => []
  | c :: s' =>
      (if previous_is_cased then latin1_lower_char c else latin1_title_char c)
        ++ latin1_title_from (latin1_is_cased c) s'
  end.

#[export] Instance latin1_title : TitleCase :=
  {| title := latin1_title_from false |}.

(** The record has a department. *)
Definition has_Departamento (p : Proyecto) : bool :=
  match Departamento p with Some _ => true | None => false end.

(** The sheet has rows and none of them has a department: pandas reads
    such a column as float64, so the key column of the count table holds
    no string and has no [.str] accessor (line 46).  A sheet without rows
    keeps an object column, which has one. *)
Definition Departamento_sin_cadenas (df_excel : DataFrame) : bool :=
  match df_excel with
  | [] => false
  | _ :: _ => negb (existsb has_Departamento df_excel)
  end.

(* ================================================================== *)
(** ** The script: loader, processing, page *)
(* ================================================================== *)

(** What a Python call does: it returns a value or raises.  [Raised e]
    stands for an instance of [Exception] whose [str(e)] is [e], which is
    what a reader raises on a missing or malformed file. *)
Inductive outcome (A : Type) : Type :=
| Returned (a : A)
| Raised (e : string).
Arguments Returned {A}.
Arguments Raised {A}.

Section Script.
Context {M : CaseMapping} {G : GeoBackend} {T : TitleCase}.

(** The two readers, [gpd.read_file] and [pd.read_excel], as the file
    system of one run makes them behave. *)
Record World := mkWorld {
  read_file : string -> outcome GeoDataFrame;
  read_excel : string -> outcome DataFrame
}.

(** The streamlit calls that show data or a diagnostic.  Titles,
    sub-headers, rules and the footer are layout and are left out. *)
Inductive Widget : Type :=
| st_error (msg : string)
| st_code (body : string)
| st_info (body : string)
| st_markdown (body : string)
| st_plotly_chart_mapa (rows : list (MergedRow Z))
| st_plotly_chart_linea (rows : list (Z * Z))
| st_metric (label : string) (value : Z)
| st_metric_rango (label : string) (rango : option (Z * Z))
| st_metric_texto (label : string) (value : pystr)
| st_dataframe (rows : list (pystr * Z)).

(** A piece of the script: it reads the world, appends widgets to the
    page, and returns or raises. *)
Definition Script (A : Type) : Type :=
  World -> list Widget -> outcome A * list Widget.

Definition ret {A : Type} (a : A) : Script A :=
  fun _ page => (Returned a, page).

Definition bind {A B : Type} (m : Script A) (k : A -> Script B) : Script B :=
  fun w page =>
    match m w page with
    | (Returned a, page') => k a w page'
    | (Raised e, page') => (Raised e, page')
    end.

Definition show (wd : Widget) : Script unit :=
  fun _ page => (Returned tt, page ++ [wd]).

(** [raise Exception(e)]: what is on the page stays there. *)
Definition raise {A : Type} (e : string) : Script A :=
  fun _ page => (Raised e, page).

Definition gpd_read_file (path : string) : Script GeoDataFrame :=
  fun w page => (read_file w path, page).

Definition pd_read_excel (path : string) : Script DataFrame :=
  fun w page => (read_excel w path, page).

(** [try: body  except Exception as e: handler e]. *)
Definition try_except {A : Type} (body : Script A) (handler : string -> Script A)
  : Script A :=
  fun w page =>
    match body w page with
    | (Returned a, page') => (Returned a, page')
    | (Raised e, page') => handler e w page'
    end.

Notation "x <- m ;; k" := (bind m (fun x => k))
  (at level 61, m at next level, right associativity).
Notation "m ;; k" := (bind m (fun _ => k))
  (at level 61, right associativity).

(** Lines 20 to 33.  The decorator [st.cache_data] of line 19 memoises
    the result between runs and hands each run its own copy; one run is
    modelled. *)
Definition cargar_datos : Script (option GeoDataFrame * option DataFrame) :=
  try_except
    (gdf <- gpd_read_file "datos/departamentos/Colombia.geo.json" ;;
     df_excel <- pd_read_excel "datos/proyectos/proyecto_colombia.xlsx" ;;
     ret (Some gdf, Some df_excel))
    (fun e =>
       show (st_error ("❌ Error al cargar los datos: " ++ e)) ;;
       ret (None, None)).

(** The script's variables once lines 41 to 100 have run.  [gdf] is the
    loaded frame itself: line 47 assigns to its column. *)
Record Variables := mkVariables {
  v_gdf : GeoDataFrame;
  v_df_excel : DataFrame;
  v_proyectos_por_depto : list (pystr * Z);
  v_gdf_merged : list (MergedRow Z);
  v_proyectos_por_año : list (Z * Z)
}.

Definition procesar (gdf : GeoDataFrame) (df_excel : DataFrame) : Variables :=
  {| v_gdf := normalizar_NOMBRE_DPT gdf;
     v_df_excel := df_excel;
     v_proyectos_por_depto := proyectos_por_depto df_excel;
     v_gdf_merged := gdf_merged gdf df_excel;
     v_proyectos_por_año := proyectos_por_año df_excel |}.

(** Line 132. *)
Definition total_de_proyectos (df_excel : DataFrame) : Z := len df_excel.

(** Line 135. *)
Definition departamentos_con_proyectos (rows : list (MergedRow Z)) : Z :=
  len (filter (fun row => 0 <? Cantidad_Proyectos row) rows).

(** Lines 138 to 142. *)
Definition rango_de_años (df_excel : DataFrame) : option (Z * Z) :=
  match dropna (map Año_de_publicación df_excel) with
  | [] => None
  | y :: ys => Some (fold_right Z.min y ys, fold_right Z.max y ys)
  end.

(** Line 46 on the count table: [.str] raises [AttributeError] on a key
    column that holds no string (the text is that of pandas 2). *)
Definition linea_46 (df_excel : DataFrame) : Script unit :=
  if Departamento_sin_cadenas df_excel
  then raise "Can only use .str accessor with string values!"
  else ret tt.

(** Line 47 on the boundary frame: a file without features gives a frame
    without the column [NOMBRE_DPT], and indexing it raises [KeyError]. *)
Definition linea_47 (gdf : GeoDataFrame) : Script unit :=
  match gdf with
  | [] => raise "'NOMBRE_DPT'"
  | _ :: _ => ret tt
  end.

(** Lines 145 to 147: the fourth metric, shown when there is a top
    department. *)
Definition metrica_dept_max (t : list (pystr * Z)) : Script unit :=
  match departamento_con_mas_proyectos t with
  | Some label => show (st_metric_texto "Departamento con Más Proyectos" label)
  | None => ret tt
  end.

(** Lines 40 to 161: the branch taken when both frames are there.  Nothing
    is shown before lines 46 and 47 have run; once they have, the
    variables are those of [procesar]. *)
Definition tablero (gdf : GeoDataFrame) (df_excel : DataFrame) : Script unit :=
  linea_46 df_excel ;;
  linea_47 gdf ;;
  let v := procesar gdf df_excel in
  show (st_plotly_chart_mapa (v_gdf_merged v)) ;;
  show (st_plotly_chart_linea (v_proyectos_por_año v)) ;;
  show (st_metric "Total de Proyectos" (total_de_proyectos (v_df_excel v))) ;;
  show (st_metric "Departamentos con Proyectos"
                  (departamentos_con_proyectos (v_gdf_merged v))) ;;
  show (st_metric_rango "Rango de Años" (rango_de_años (v_df_excel v))) ;;
  metrica_dept_max (v_proyectos_por_depto v) ;;
  show (st_dataframe (tabla_resumen (v_proyectos_por_depto v))).

(** Lines 164 to 173: the diagnostic panel. *)
Definition aviso : Script unit :=
  show (st_error "⚠️ No se pudieron cargar los datos. Verifica que los archivos existan en las rutas especificadas:") ;;
  show (st_code "datos/departamentos/Colombia.geo.json") ;;
  show (st_code "datos/proyectos/proyecto_colombia.xlsx") ;;
  show (st_info "📝 Asegúrate de que:") ;;
  show (st_markdown "- El archivo GeoJSON esté en la ruta correcta
- El archivo Excel tenga la columna 'Departamento' y 'Año de publicación'
- Las rutas de las carpetas sean exactamente como se especifican").

(** Line 38: [if gdf is not None and df_excel is not None: ... else: ...]. *)
Definition pagina (gdf : option GeoDataFrame) (df_excel : option DataFrame)
  : Script unit :=
  match gdf, df_excel with
  | Some gdf, Some df_excel => tablero gdf df_excel
  | _, _ => aviso
  end.

(** Lines 36 to 173. *)
Definition app : Script unit :=
  loaded <- cargar_datos ;;
  pagina (fst loaded) (snd loaded).

(** A widget that only the data branch shows. *)
Definition is_data_widget (wd : Widget) : bool :=
  match wd with
  | st_plotly_chart_mapa _ | st_plotly_chart_linea _
  | st_metric _ _ | st_metric_rango _ _
  | st_metric_texto _ _ | st_dataframe _ => true
  | _ => false
  end.

(** The readers fail on this world: one of the two calls raises. *)
Definition load_fails (w : World) : Prop :=
  (exists e, read_file w "datos/departamentos/Colombia.geo.json" = Raised e) \/
  (exists e, read_excel w "datos/proyectos/proyecto_colombia.xlsx" = Raised e).
End Script.

(* ================================================================== *)
(** ** Vocabulary of the properties *)
(* ================================================================== *)

Section Vocabulary.
Context {M : CaseMapping} {G : GeoBackend}.

(** The normalised names of the regions. *)
Definition nombres (gdf : GeoDataFrame) : list pystr :=
  map (fun r => normalize (NOMBRE_DPT r)) gdf.

(** The record has a department and, once normalised, it is [name]. *)
Definition is_of (name : pystr) (p : Proyecto) : bool :=
  match Departamento p with
  | Some d => pystr_eqb (normalize d) name
  | None => false
  end.

(** The number of records of one normalised department. *)
Definition count_for (df_excel : DataFrame) (name : pystr) : Z :=
  len (filter (is_of name) df_excel).

(** The record's normalised department is the normalised name of some
    region. *)
Definition matched (gdf : GeoDataFrame) (p : Proyecto) : bool :=
  existsb (fun name => is_of name p) (nombres gdf).

(** The (name, count) pairs of a merged frame. *)
Definition name_counts (rows : list (MergedRow Z)) : list (pystr * Z) :=
  map (fun row => (m_NOMBRE_DPT row, Cantidad_Proyectos row)) rows.
End Vocabulary.

(** The number of records published in year [y]. *)
Definition count_year (df_excel : DataFrame) (y : Z) : Z :=
  len (filter (fun p => match Año_de_publicación p with
                        | Some y' => y' =? y
                        | None => false
                        end) df_excel).

(** The total of the counts of the rows of a table with key [k], and the
    total weighted by a function of the key. *)
Definition key_total (t : list (pystr * Z)) (k : pystr) : Z :=
  sum_Z (map snd (filter (fun row => pystr_eqb k (fst row)) t)).

Definition weighted (g : pystr -> Z) (t : list (pystr * Z)) : Z :=
  sum_Z (map (fun row => g (fst row) * snd row) t).

(** The total of the counts of the rows of a year table with year [y]. *)
Definition year_total (t : list (Z * Z)) (y : Z) : Z :=
  sum_Z (map snd (filter (fun row => fst row =? y) t)).

(** The cell holds the year [y]. *)
Definition is_year (y : Z) (cell : option Z) : bool :=
  match cell with Some y' => y' =? y | None => false end.

(** *** Worked inputs *)

Module Ejemplo.
(** The example of the specification: two regions, three records. *)
Definition regiones : @GeoDataFrame plain_geo :=
  [mkRegion (py "ANTIOQUIA") []; mkRegion (py "CHOCO") []].

Definition proyectos : DataFrame :=
  [mkProyecto (Some (py "Antioquia")) None;
   mkProyecto (Some (py "antioquia ")) None;
   mkProyecto (Some (py "Valle")) None].

(** Two features whose names differ in case only, one record. *)
Definition regiones_repetidas : @GeoDataFrame plain_geo :=
  [mkRegion (py "CHOCO") []; mkRegion (py "Choco") []].

Definition un_proyecto : DataFrame := [mkProyecto (Some (py "Choco")) (Some 2021)].

(** A frame with a name that is not yet normalised. *)
Definition sin_normalizar : @GeoDataFrame plain_geo :=
  [mkRegion (py "Antioquia") [(0, 0); (1, 0); (0, 1)]].

(** Years 2020, 2019, 2020 and a missing one. *)
Definition por_años : DataFrame :=
  [mkProyecto None (Some 2020); mkProyecto None (Some 2019);
   mkProyecto None (Some 2020); mkProyecto None None].

(** [" bogotá "], ["BOGOTÁ"], ["Bogotá"] and ["bogotá"]. *)
Definition bogota_con_espacios : pystr := py " bogot" ++ [225%N; 32%N].
Definition BOGOTA : pystr := py "BOGOT" ++ [193%N].
Definition Bogota : pystr := py "Bogot" ++ [225%N].
Definition bogota : pystr := py "bogot" ++ [225%N].

(** A world where the spreadsheet cannot be read, and one where both files
    load. *)
Definition sin_excel : @World plain_geo :=
  mkWorld (fun _ => Returned regiones) (fun _ => Raised "No such file").

Definition completo : @World plain_geo :=
  mkWorld (fun _ => Returned regiones) (fun _ => Returned proyectos).

(** Both files load; the boundary file has no feature and the sheet no
    row. *)
Definition vacio : @World plain_geo :=
  mkWorld (fun _ => Returned []) (fun _ => Returned []).

(** Both files load; the sheet has rows and no department. *)
Definition sin_departamentos : @World plain_geo :=
  mkWorld (fun _ => Returned regiones) (fun _ => Returned por_años).

(** Both files load; the sheet has no row. *)
Definition sin_proyectos : @World plain_geo :=
  mkWorld (fun _ => Returned regiones) (fun _ => Returned []).
End Ejemplo.

(* ================================================================== *)
(** ** More vocabulary *)
(* ================================================================== *)

(** The number of cells of a column that hold the string [k]. *)
Definition occurrences (k : pystr) (col : list (option pystr)) : Z :=
  len (filter (fun cell => match cell with
                           | Some d => pystr_eqb d k
                           | None => false
                           end) col).

(** A string with no white space at either end. *)
Definition trimmed (s : pystr) : bool :=
  match s with
  | [] => true
  | c :: s' => negb (isspace c) && negb (isspace (last s' c))
  end.

(** Rows in decreasing order of count. *)
Definition more_first (a b : pystr * Z) : Prop := snd b <= snd a.

Section VocabularyOfRows.
Context {G : GeoBackend}.

(** The merge found a key for this row. *)
Definition is_matched_row (row : MergedRow Z) : bool :=
  match m_Departamento row with Some _ => true | None => false end.

(** The number of rows of a count table with key [name], as a number of
    rows of the merged frame: a region without a key still gets one. *)
Definition rows_for (t : list (pystr * Z)) (name : pystr) : nat :=
  Nat.max 1 (List.length (filter (fun row => pystr_eqb name (fst row)) t)).
End VocabularyOfRows.

Module Casos.
(** A spreadsheet with a missing department and a missing year. *)
Definition con_huecos : DataFrame :=
  [mkProyecto (Some (py "Cesar")) (Some 2022);
   mkProyecto None (Some 2019);
   mkProyecto (Some (py "La Guajira")) None;
   mkProyecto (Some (py "Cesar")) (Some 2019)].

(** The same rows in another order. *)
Definition con_huecos_reordenado : DataFrame :=
  [mkProyecto (Some (py "Cesar")) (Some 2019);
   mkProyecto (Some (py "La Guajira")) None;
   mkProyecto (Some (py "Cesar")) (Some 2022);
   mkProyecto None (Some 2019)].

Definition departamentos : @GeoDataFrame plain_geo :=
  [mkRegion (py "La Guajira") [(0, 0); (2, 0); (0, 2)];
   mkRegion (py "CESAR") [(5, 5); (6, 5); (5, 6)];
   mkRegion (py "Meta") []].

(** A world where the boundary file cannot be read. *)
Definition sin_geojson : @World plain_geo :=
  mkWorld (fun _ => Raised "bad GeoJSON") (fun _ => Returned con_huecos).

Definition completo : @World plain_geo :=
  mkWorld (fun _ => Returned departamentos) (fun _ => Returned con_huecos).
End Casos.

(* ================================================================== *)
(** ** Facts about strings *)
(* ================================================================== *)

Lemma pystr_eqb_eq (a b : pystr) : pystr_eqb a b = true <-> a = b.
Proof.
  revert b; induction a as [|x a IH]; intros [|y b]; simpl;
    try (split; intros; congruence).
  rewrite andb_true_iff, N.eqb_eq, IH.
  split; [intros [-> ->]; reflexivity | intros E; inversion E; auto].
Qed.

Lemma pystr_eqb_refl (a : pystr) : pystr_eqb a a = true.
Proof. apply pystr_eqb_eq; reflexivity. Qed.

Lemma pystr_eqb_neq (a b : pystr) : pystr_eqb a b = false <-> a <> b.
Proof.
  rewrite <- pystr_eqb_eq. destruct (pystr_eqb a b); split; congruence.
Qed.

(** *** Stripping *)

Lemma lstrip_blank (s : pystr) : blank s = true -> lstrip s = [].
Proof.
  induction s as [|c s IH]; simpl; [reflexivity|].
  intros H; apply andb_true_iff in H as [Hc Hs]. rewrite Hc; auto.
Qed.

Lemma lstrip_app (s r : pystr) :
  lstrip (s ++ r) = if blank s then lstrip r else lstrip s ++ r.
Proof.
  induction s as [|c s IH]; simpl; [reflexivity|].
  destruct (isspace c); simpl; [exact IH | reflexivity].
Qed.

Lemma lstrip_split (s : pystr) :
  exists w, blank w = true /\ s = w ++ lstrip s.
Proof.
  induction s as [|c s [w [Hw E]]]; simpl.
  - exists []; split; reflexivity.
  - destruct (isspace c) eqn:Hc.
    + exists (c :: w); simpl; rewrite Hc, Hw; split; [reflexivity|].
      f_equal; exact E.
    + exists []; split; reflexivity.
Qed.

Lemma lstrip_idem (s : pystr) : lstrip (lstrip s) = lstrip s.
Proof.
  induction s as [|c s IH]; simpl; [reflexivity|].
  destruct (isspace c) eqn:Hc; [exact IH | simpl; rewrite Hc; reflexivity].
Qed.

Lemma blank_app (a b : pystr) : blank (a ++ b) = blank a && blank b.
Proof. apply forallb_app. Qed.

Lemma blank_rev (s : pystr) : blank (rev s) = blank s.
Proof.
  induction s as [|c s IH]; simpl; [reflexivity|].
  rewrite blank_app, IH; simpl. rewrite andb_true_r, andb_comm; reflexivity.
Qed.

Lemma rstrip_split (s : pystr) :
  exists w, blank w = true /\ s = rstrip s ++ w.
Proof.
  destruct (lstrip_split (rev s)) as [w [Hw E]].
  exists (rev w); split; [rewrite blank_rev; exact Hw|].
  unfold rstrip. rewrite <- rev_app_distr, <- E, rev_involutive; reflexivity.
Qed.

Lemma rstrip_idem (s : pystr) : rstrip (rstrip s) = rstrip s.
Proof. unfold rstrip. rewrite rev_involutive, lstrip_idem; reflexivity. Qed.

Lemma rstrip_app_blank (s r : pystr) :
  blank r = true -> rstrip (s ++ r) = rstrip s.
Proof.
  intros Hr. unfold rstrip. rewrite rev_app_distr, lstrip_app, blank_rev, Hr.
  reflexivity.
Qed.

Lemma rstrip_blank (s : pystr) : blank s = true -> rstrip s = [].
Proof.
  intros H. unfold rstrip. rewrite lstrip_blank; [reflexivity|].
  rewrite blank_rev; exact H.
Qed.

(** Stripping the right end keeps a left end that is already stripped. *)
Lemma lstrip_rstrip_lstrip (s : pystr) :
  lstrip (rstrip (lstrip s)) = rstrip (lstrip s).
Proof.
  destruct (rstrip_split (lstrip s)) as [w [Hw E]].
  assert (H := lstrip_idem s). rewrite E in H at 1.
  rewrite lstrip_app in H.
  destruct (blank (rstrip (lstrip s))) eqn:Hb.
  - rewrite (lstrip_blank _ Hb). rewrite <- (rstrip_idem (lstrip s)).
    symmetry. apply rstrip_blank. exact Hb.
  - rewrite E in H at 2. apply app_inv_tail in H. exact H.
Qed.

Lemma strip_idem (s : pystr) : strip (strip s) = strip s.
Proof.
  unfold strip. rewrite lstrip_rstrip_lstrip. apply rstrip_idem.
Qed.

Lemma strip_padding (l s r : pystr) :
  blank l = true -> blank r = true -> strip (l ++ s ++ r) = strip s.
Proof.
  intros Hl Hr. unfold strip.
  rewrite lstrip_app, Hl, lstrip_app.
  destruct (blank s) eqn:Hs.
  - rewrite (lstrip_blank _ Hr), (lstrip_blank _ Hs); reflexivity.
  - apply rstrip_app_blank; exact Hr.
Qed.

Lemma In_lstrip (d : codepoint) (s : pystr) : In d (lstrip s) -> In d s.
Proof.
  destruct (lstrip_split s) as [w [_ E]]. intros H.
  rewrite E. apply in_or_app; right; exact H.
Qed.

Lemma In_rstrip (d : codepoint) (s : pystr) : In d (rstrip s) -> In d s.
Proof.
  destruct (rstrip_split s) as [w [_ E]]. intros H.
  rewrite E. apply in_or_app; left; exact H.
Qed.

Lemma In_strip (d : codepoint) (s : pystr) : In d (strip s) -> In d s.
Proof. intros H. apply In_lstrip, In_rstrip, H. Qed.

(** *** Upper-casing *)

Section UpperFacts.
Context {M : CaseMapping} {L : CaseMappingLaws M}.

Lemma upper_app (a b : pystr) : upper (a ++ b) = upper a ++ upper b.
Proof. apply flat_map_app. Qed.

Lemma upper_fixed_points (s : pystr) :
  (forall d, In d s -> upper_char d = [d]) -> upper s = s.
Proof.
  induction s as [|c s IH]; simpl; intros H; [reflexivity|].
  rewrite (H c) by (left; reflexivity). simpl. f_equal.
  apply IH. intros d Hd. apply H. right; exact Hd.
Qed.

Lemma upper_is_upper (s : pystr) (d : codepoint) :
  In d (upper s) -> upper_char d = [d].
Proof.
  unfold upper. rewrite in_flat_map. intros [c [_ Hd]].
  exact (upper_char_fixed c d Hd).
Qed.

Lemma upper_blank (s : pystr) : blank s = true -> upper s = s.
Proof.
  intros H. apply upper_fixed_points. intros d Hd.
  apply upper_char_space.
  unfold blank in H. rewrite forallb_forall in H. exact (H d Hd).
Qed.

Lemma upper_same_case (s t : pystr) : same_up_to_case s t -> upper s = upper t.
Proof.
  induction 1 as [|a b s t Hab _ IH]; simpl; [reflexivity|].
  rewrite Hab, IH; reflexivity.
Qed.

Lemma normalize_idem (s : pystr) : normalize (normalize s) = normalize s.
Proof.
  unfold normalize.
  rewrite (upper_fixed_points (strip (upper s))).
  - apply strip_idem.
  - intros d Hd. apply (upper_is_upper s). apply In_strip; exact Hd.
Qed.
End UpperFacts.

(** The Latin-1 table leaves alone whatever is outside its lower-case
    ranges. *)
Lemma latin1_upper_char_id (d : codepoint) :
  (d < 97 \/ 122 < d)%N -> d <> 181%N -> d <> 223%N ->
  (d < 224 \/ d = 247 \/ 254 < d)%N -> d <> 255%N ->
  latin1_upper_char d = [d].
Proof.
  intros H1 H2 H3 H4 H5. unfold latin1_upper_char.
  destruct ((97 <=? d) && (d <=? 122))%N eqn:E1.
  { apply andb_true_iff in E1 as [A B]. apply N.leb_le in A, B. lia. }
  destruct (d =? 181)%N eqn:E2; [apply N.eqb_eq in E2; lia|].
  destruct (d =? 223)%N eqn:E3; [apply N.eqb_eq in E3; lia|].
  destruct ((224 <=? d) && (d <=? 254) && negb (d =? 247))%N eqn:E4.
  { apply andb_true_iff in E4 as [E4 C]. apply andb_true_iff in E4 as [A B].
    apply negb_true_iff in C. apply N.leb_le in A, B. apply N.eqb_neq in C.
    lia. }
  destruct (d =? 255)%N eqn:E5; [apply N.eqb_eq in E5; lia|].
  reflexivity.
Qed.

Lemma isspace_range (c : codepoint) :
  isspace c = true ->
  (c <= 32 \/ c = 133 \/ c = 160 \/ 5760 <= c)%N.
Proof.
  unfold isspace. intros H.
  repeat (apply orb_true_iff in H as [H | H]);
    repeat match goal with
           | X : (_ && _)%bool = true |- _ => apply andb_true_iff in X as [? ?]
           | X : (_ <=? _)%N = true |- _ => apply N.leb_le in X
           | X : (_ =? _)%N = true |- _ => apply N.eqb_eq in X
           end; lia.
Qed.

(** The Latin-1 table obeys the two laws. *)
Lemma latin1_laws : CaseMappingLaws latin1.
Proof.
  split; intros c; change (@upper_char latin1) with latin1_upper_char.
  - intros d. unfold latin1_upper_char at 1.
    destruct ((97 <=? c) && (c <=? 122))%N eqn:E1.
    { apply andb_true_iff in E1 as [A B]. apply N.leb_le in A, B.
      intros [<- | []]. apply latin1_upper_char_id; lia. }
    destruct (c =? 181)%N eqn:E2.
    { intros [<- | []]. reflexivity. }
    destruct (c =? 223)%N eqn:E3.
    { intros [<- | [<- | []]]; reflexivity. }
    destruct ((224 <=? c) && (c <=? 254) && negb (c =? 247))%N eqn:E4.
    { apply andb_true_iff in E4 as [E4 C]. apply andb_true_iff in E4 as [A B].
      apply negb_true_iff in C. apply N.leb_le in A, B. apply N.eqb_neq in C.
      intros [<- | []]. apply latin1_upper_char_id; lia. }
    destruct (c =? 255)%N eqn:E5.
    { intros [<- | []]. reflexivity. }
    intros [<- | []]. unfold latin1_upper_char.
    rewrite E1, E2, E3, E4, E5. reflexivity.
  - intros H. apply isspace_range in H.
    apply latin1_upper_char_id; lia.
Qed.

(** C7.  Normalisation (upper-case, then strip) is idempotent, and it does
    not see case or surrounding white space: for every case table that
    obeys the two laws, normalising a normalised string returns it
    unchanged, two strings that differ only in case normalise to the same
    string, and so do a string and the same string padded with white space
    on either side. *)
Theorem normalize_idempotent_insensitive
  (M : CaseMapping) (L : CaseMappingLaws M) :
  (forall s, normalize (normalize s) = normalize s) /\
  (forall s t, same_up_to_case s t -> normalize s = normalize t) /\
  (forall l s r, blank l = true -> blank r = true ->
                 normalize (l ++ s ++ r) = normalize s).
Proof.
  split; [|split].
  - intros s. apply normalize_idem.
  - intros s t H. unfold normalize. rewrite (upper_same_case s t H).
    reflexivity.
  - intros l s r Hl Hr. unfold normalize.
    rewrite !upper_app, (upper_blank l Hl), (upper_blank r Hr).
    apply strip_padding; assumption.
Qed.

(** The three spellings of the specification normalise to ["BOGOTÁ"], and
    normalising again changes nothing. *)
Lemma normalize_bogota :
  CaseMappingLaws latin1 /\
  normalize Ejemplo.bogota_con_espacios = normalize Ejemplo.bogota /\
  normalize Ejemplo.bogota = normalize Ejemplo.Bogota /\
  normalize Ejemplo.Bogota = normalize Ejemplo.BOGOTA /\
  normalize Ejemplo.BOGOTA = Ejemplo.BOGOTA /\
  normalize (normalize Ejemplo.bogota_con_espacios)
  = normalize Ejemplo.bogota_con_espacios.
Proof.
  destruct (normalize_idempotent_insensitive latin1 latin1_laws)
    as [Hidem [Hcase Hpad]].
  split; [exact latin1_laws|].
  split; [exact (Hpad [32%N] Ejemplo.bogota [32%N] eq_refl eq_refl)|].
  split; [apply Hcase; repeat constructor|].
  split; [apply Hcase; repeat constructor|].
  split; [reflexivity|].
  apply Hidem.
Defined.

(* ================================================================== *)
(** ** Facts about counting *)
(* ================================================================== *)

Lemma sum_Z_app (a b : list Z) : sum_Z (a ++ b) = sum_Z a + sum_Z b.
Proof. induction a as [|x a IH]; simpl; [reflexivity | rewrite IH; lia]. Qed.

Lemma sum_Z_map_add {A : Type} (f g : A -> Z) (l : list A) :
  sum_Z (map (fun x => f x + g x) l) = sum_Z (map f l) + sum_Z (map g l).
Proof. induction l as [|x l IH]; simpl; [reflexivity | rewrite IH; lia]. Qed.

Lemma len_nil {A : Type} : len (@nil A) = 0.
Proof. reflexivity. Qed.

Lemma len_cons {A : Type} (x : A) (l : list A) : len (x :: l) = 1 + len l.
Proof. unfold len. simpl List.length. lia. Qed.

Lemma len_filter_le {A : Type} (f : A -> bool) (l : list A) :
  len (filter f l) <= len l.
Proof.
  induction l as [|x l IH]; simpl; [lia|].
  destruct (f x); rewrite ?len_cons; lia.
Qed.

Lemma len_filter_all {A : Type} (f : A -> bool) (l : list A) :
  len (filter f l) = len l <-> forallb f l = true.
Proof.
  induction l as [|x l IH]; simpl; [split; reflexivity|].
  pose proof (len_filter_le f l) as Hle.
  destruct (f x); simpl; rewrite ?len_cons.
  - rewrite <- IH; split; lia.
  - split; [lia | discriminate].
Qed.

(** The number of rows that pass a test, as a sum of zeros and ones. *)
Lemma len_filter_sum {A : Type} (f : A -> bool) (l : list A) :
  len (filter f l) = sum_Z (map (fun x => if f x then 1 else 0) l).
Proof.
  induction l as [|x l IH]; simpl; [reflexivity|].
  destruct (f x); rewrite ?len_cons; lia.
Qed.

Lemma pystr_eqb_sym (a b : pystr) : pystr_eqb a b = pystr_eqb b a.
Proof.
  destruct (pystr_eqb a b) eqn:E.
  - apply pystr_eqb_eq in E; subst. symmetry; apply pystr_eqb_refl.
  - symmetry. apply pystr_eqb_neq. apply pystr_eqb_neq in E. congruence.
Qed.

(** *** [value_counts] *)

Lemma weighted_bump (g : pystr -> Z) (k : pystr) (t : list (pystr * Z)) :
  weighted g (bump k t) = weighted g t + g k.
Proof.
  unfold weighted. induction t as [|[k' n] t IH]; simpl; [lia|].
  destruct (pystr_eqb k k') eqn:E; simpl.
  - apply pystr_eqb_eq in E; subst. lia.
  - rewrite IH; lia.
Qed.

Lemma weighted_fold_bump (g : pystr -> Z) (col : list pystr) (t : list (pystr * Z)) :
  weighted g (fold_left (fun t k => bump k t) col t)
  = weighted g t + sum_Z (map g col).
Proof.
  revert t; induction col as [|k col IH]; intros t; simpl; [lia|].
  rewrite IH, weighted_bump; lia.
Qed.

Lemma weighted_insert_desc (g : pystr -> Z) (x : pystr * Z) (t : list (pystr * Z)) :
  weighted g (insert_desc x t) = g (fst x) * snd x + weighted g t.
Proof.
  unfold weighted. induction t as [|y t IH]; simpl; [reflexivity|].
  destruct (snd y <=? snd x); simpl; [reflexivity | rewrite IH; lia].
Qed.

Lemma weighted_sort_desc (g : pystr -> Z) (t : list (pystr * Z)) :
  weighted g (sort_desc t) = weighted g t.
Proof.
  induction t as [|x t IH]; simpl; [reflexivity|].
  rewrite weighted_insert_desc, IH. reflexivity.
Qed.

(** Whatever the weight of a key, the weighted total of the count table
    is the total weight of the cells that are present. *)
Lemma weighted_value_counts (g : pystr -> Z) (col : list (option pystr)) :
  weighted g (value_counts col) = sum_Z (map g (dropna col)).
Proof.
  unfold value_counts, tally.
  rewrite weighted_sort_desc, weighted_fold_bump. reflexivity.
Qed.

Lemma bump_positive (k : pystr) (t : list (pystr * Z)) :
  Forall (fun row => 0 < snd row) t ->
  Forall (fun row => 0 < snd row) (bump k t).
Proof.
  induction 1 as [|[k' n] t Hn Ht IH]; simpl.
  - constructor; [simpl; lia | constructor].
  - destruct (pystr_eqb k k'); constructor; simpl in *; auto; lia.
Qed.

Lemma insert_desc_Forall (P : pystr * Z -> Prop) (x : pystr * Z) (t : list (pystr * Z)) :
  P x -> Forall P t -> Forall P (insert_desc x t).
Proof.
  intros Hx. induction 1 as [|y t Hy Ht IH]; simpl.
  - constructor; [exact Hx | constructor].
  - destruct (snd y <=? snd x); repeat constructor; auto.
Qed.

Lemma value_counts_positive (col : list (option pystr)) :
  Forall (fun row => 0 < snd row) (value_counts col).
Proof.
  unfold value_counts, tally.
  assert (H : forall l t, Forall (fun row : pystr * Z => 0 < snd row) t ->
            Forall (fun row => 0 < snd row)
                   (fold_left (fun t k => bump k t) l t)).
  { induction l as [|k l IH]; intros t Ht; simpl; [exact Ht|].
    apply IH, bump_positive, Ht. }
  specialize (H (dropna col) [] (Forall_nil _)).
  induction H as [|x t Hx Ht IH]; simpl; [constructor|].
  apply insert_desc_Forall; assumption.
Qed.

(* ================================================================== *)
(** ** Facts about the merge *)
(* ================================================================== *)

Lemma key_total_cons (row : pystr * Z) (t : list (pystr * Z)) (k : pystr) :
  key_total (row :: t) k
  = (if pystr_eqb k (fst row) then snd row else 0) + key_total t k.
Proof.
  unfold key_total. simpl. destruct (pystr_eqb k (fst row)); simpl; lia.
Qed.

Lemma key_total_map_weighted (f : pystr -> pystr) (t : list (pystr * Z)) (k : pystr) :
  key_total (map (fun row => (f (fst row), snd row)) t) k
  = weighted (fun key => if pystr_eqb k (f key) then 1 else 0) t.
Proof.
  induction t as [|row t IH]; [reflexivity|].
  simpl map. rewrite key_total_cons, IH. unfold weighted. simpl.
  destruct (pystr_eqb k (f (fst row))); lia.
Qed.

Lemma sum_dropna_Departamento (g : pystr -> Z) (df : DataFrame) :
  sum_Z (map g (dropna (map Departamento df)))
  = sum_Z (map (fun p => match Departamento p with
                         | Some d => g d
                         | None => 0
                         end) df).
Proof.
  induction df as [|p df IH]; simpl; [reflexivity|].
  destruct (Departamento p); simpl; rewrite IH; reflexivity.
Qed.

Section MergeFacts.
Context {M : CaseMapping} {G : GeoBackend}.

(** In the count table, the rows with one normalised key add up to the
    number of records of that normalised department. *)
Lemma key_total_proyectos_por_depto (df : DataFrame) (name : pystr) :
  key_total (proyectos_por_depto df) name = count_for df name.
Proof.
  unfold proyectos_por_depto, count_for.
  rewrite key_total_map_weighted, weighted_value_counts.
  rewrite sum_dropna_Departamento, len_filter_sum.
  f_equal. apply map_ext. intros p. unfold is_of.
  destruct (Departamento p); [|reflexivity].
  rewrite pystr_eqb_sym. reflexivity.
Qed.

Lemma NOMBRE_DPT_normalizar (gdf : GeoDataFrame) :
  map NOMBRE_DPT (normalizar_NOMBRE_DPT gdf) = nombres gdf.
Proof. unfold normalizar_NOMBRE_DPT, nombres. rewrite map_map. reflexivity. Qed.

Lemma counts_gdf_merged (gdf : GeoDataFrame) (df : DataFrame) :
  counts (gdf_merged gdf df)
  = map (fun row => fillna 0 (Cantidad_Proyectos row))
        (merge_left (normalizar_NOMBRE_DPT gdf) (proyectos_por_depto df)).
Proof. unfold counts, gdf_merged. rewrite !map_map. reflexivity. Qed.

Lemma names_gdf_merged (gdf : GeoDataFrame) (df : DataFrame) :
  map m_NOMBRE_DPT (gdf_merged gdf df)
  = map m_NOMBRE_DPT
        (merge_left (normalizar_NOMBRE_DPT gdf) (proyectos_por_depto df)).
Proof. unfold gdf_merged. rewrite !map_map. reflexivity. Qed.

(** The rows the merge makes for one region carry, in total, the counts
    of the rows of the table with that region's key. *)
Lemma sum_merge_row (right : list (pystr * Z)) (r : Region) :
  sum_Z (map (fun row => fillna 0 (Cantidad_Proyectos row)) (merge_row right r))
  = key_total right (NOMBRE_DPT r).
Proof.
  unfold merge_row, key_total.
  destruct (filter _ right) as [|hit hits]; [reflexivity|].
  rewrite map_map. reflexivity.
Qed.

Lemma sum_merge_left (left : GeoDataFrame) (right : list (pystr * Z)) :
  sum_Z (map (fun row => fillna 0 (Cantidad_Proyectos row)) (merge_left left right))
  = sum_Z (map (key_total right) (map NOMBRE_DPT left)).
Proof.
  unfold merge_left. induction left as [|r left IH]; simpl; [reflexivity|].
  rewrite map_app, sum_Z_app, sum_merge_row, IH. reflexivity.
Qed.

(** The counts of the merged frame add up to the records of the regions'
    normalised names, region by region. *)
Lemma sum_counts_by_region (gdf : GeoDataFrame) (df : DataFrame) :
  sum_Z (counts (gdf_merged gdf df))
  = sum_Z (map (count_for df) (nombres gdf)).
Proof.
  rewrite counts_gdf_merged, sum_merge_left, NOMBRE_DPT_normalizar.
  f_equal. apply map_ext. intros name.
  apply key_total_proyectos_por_depto.
Qed.

(** A record is of at most one of a list of distinct names. *)
Lemma is_of_NoDup (names : list pystr) (p : Proyecto) :
  NoDup names ->
  sum_Z (map (fun name => if is_of name p then 1 else 0) names)
  = if existsb (fun name => is_of name p) names then 1 else 0.
Proof.
  induction 1 as [|a rest Ha Hrest IH]; simpl; [reflexivity|].
  destruct (is_of a p) eqn:Ea; simpl; [|exact IH].
  rewrite IH.
  destruct (existsb (fun name => is_of name p) rest) eqn:Er; [|reflexivity].
  exfalso. apply existsb_exists in Er as [b [Hb Eb]].
  unfold is_of in Ea, Eb. destruct (Departamento p) as [d|]; [|discriminate].
  apply pystr_eqb_eq in Ea, Eb. subst. contradiction.
Qed.

Lemma count_for_cons (p : Proyecto) (df : DataFrame) (name : pystr) :
  count_for (p :: df) name = (if is_of name p then 1 else 0) + count_for df name.
Proof.
  unfold count_for. simpl. destruct (is_of name p); rewrite ?len_cons; lia.
Qed.

(** With distinct normalised names, the records of all the regions are the
    matched records. *)
Lemma sum_count_for_matched (gdf : GeoDataFrame) (df : DataFrame) :
  NoDup (nombres gdf) ->
  sum_Z (map (count_for df) (nombres gdf)) = len (filter (matched gdf) df).
Proof.
  intros Hnd. induction df as [|p df IH].
  - simpl. unfold count_for. simpl. rewrite len_nil.
    induction (nombres gdf) as [|a l IHl]; simpl; [reflexivity|].
    apply NoDup_cons_iff in Hnd as [_ Hnd]. rewrite (IHl Hnd). reflexivity.
  - rewrite (map_ext _ _ (count_for_cons p df)), sum_Z_map_add, IH.
    rewrite (is_of_NoDup _ p Hnd). simpl. unfold matched at 2.
    destruct (existsb _ (nombres gdf)); rewrite ?len_cons; lia.
Qed.
End MergeFacts.

Section MergeShape.
Context {M : CaseMapping} {G : GeoBackend}.

(** A table with distinct keys has at most one row per key. *)
Lemma filter_key_NoDup (t : list (pystr * Z)) (k : pystr) :
  NoDup (map fst t) ->
  filter (fun row => pystr_eqb k (fst row)) t = [] \/
  exists hit, filter (fun row => pystr_eqb k (fst row)) t = [hit].
Proof.
  induction t as [|row t IH]; simpl; intros Hnd; [left; reflexivity|].
  apply NoDup_cons_iff in Hnd as [Hrow Hnd].
  destruct (pystr_eqb k (fst row)) eqn:E; [|exact (IH Hnd)].
  right. exists row. f_equal.
  destruct (filter _ t) as [|other rest] eqn:F; [reflexivity|].
  exfalso. apply Hrow.
  assert (Hin : In other (filter (fun row => pystr_eqb k (fst row)) t))
    by (rewrite F; left; reflexivity).
  apply filter_In in Hin as [Hin Ek].
  apply pystr_eqb_eq in E, Ek. rewrite <- E, Ek. apply in_map, Hin.
Qed.

Lemma merge_row_NoDup (right : list (pystr * Z)) (r : Region) :
  NoDup (map fst right) ->
  map (fun row => (m_NOMBRE_DPT row, fillna 0 (Cantidad_Proyectos row)))
      (merge_row right r)
  = [(NOMBRE_DPT r, key_total right (NOMBRE_DPT r))].
Proof.
  intros Hnd. unfold merge_row, key_total.
  destruct (filter_key_NoDup right (NOMBRE_DPT r) Hnd) as [E | [hit E]];
    rewrite E; simpl; rewrite ?Z.add_0_r; reflexivity.
Qed.

Lemma merge_left_NoDup (left : GeoDataFrame) (right : list (pystr * Z)) :
  NoDup (map fst right) ->
  map (fun row => (m_NOMBRE_DPT row, fillna 0 (Cantidad_Proyectos row)))
      (merge_left left right)
  = map (fun r => (NOMBRE_DPT r, key_total right (NOMBRE_DPT r))) left.
Proof.
  intros Hnd. unfold merge_left.
  induction left as [|r left IH]; [reflexivity|].
  cbn [flat_map map]. rewrite map_app, IH, (merge_row_NoDup right r Hnd).
  reflexivity.
Qed.

(** When no two spellings of the spreadsheet collide after normalisation,
    the merged frame is the left join the comments describe: one row per
    region, in the order of the regions, with the number of records of
    the region's normalised name. *)
Lemma gdf_merged_without_collisions (gdf : GeoDataFrame) (df : DataFrame) :
  NoDup (map fst (proyectos_por_depto df)) ->
  name_counts (gdf_merged gdf df)
  = map (fun name => (name, count_for df name)) (nombres gdf).
Proof.
  intros Hnd. unfold name_counts, gdf_merged. rewrite !map_map.
  change (map (fun row => (m_NOMBRE_DPT row, fillna 0 (Cantidad_Proyectos row)))
              (merge_left (normalizar_NOMBRE_DPT gdf) (proyectos_por_depto df))
          = map (fun name => (name, count_for df name)) (nombres gdf)).
  rewrite (merge_left_NoDup _ _ Hnd).
  unfold normalizar_NOMBRE_DPT, nombres. rewrite !map_map.
  apply map_ext. intros r. simpl.
  rewrite key_total_proyectos_por_depto. reflexivity.
Qed.

(** Every count of the merged frame is a count of the table or the zero
    that fills a missing cell. *)
Lemma gdf_merged_counts_nonneg (gdf : GeoDataFrame) (df : DataFrame) :
  Forall (fun n => 0 <= n) (counts (gdf_merged gdf df)).
Proof.
  rewrite counts_gdf_merged. apply Forall_forall. intros n Hn.
  apply in_map_iff in Hn as [row [<- Hrow]].
  unfold merge_left in Hrow. apply in_flat_map in Hrow as [r [_ Hrow]].
  unfold merge_row in Hrow.
  destruct (filter _ (proyectos_por_depto df)) as [|hit hits] eqn:F.
  - destruct Hrow as [<- | []]. simpl. lia.
  - apply in_map_iff in Hrow as [c [<- Hc]]. simpl.
    assert (Hin : In c (proyectos_por_depto df)).
    { eapply proj1. apply filter_In. rewrite F. exact Hc. }
    unfold proyectos_por_depto in Hin. apply in_map_iff in Hin as [c0 [<- Hc0]].
    simpl. pose proof (value_counts_positive (map Departamento df)) as Hpos.
    rewrite Forall_forall in Hpos. specialize (Hpos c0 Hc0). lia.
Qed.
(** The merge drops no region and invents none: every region has at least
    one row, and every row bears the normalised name of a region. *)
Lemma merge_row_names (right : list (pystr * Z)) (r : Region) :
  merge_row right r <> [] /\
  Forall (fun row => m_NOMBRE_DPT row = NOMBRE_DPT r) (merge_row right r).
Proof.
  unfold merge_row. destruct (filter _ right) as [|hit hits].
  - split; [discriminate | repeat constructor].
  - split; [discriminate|]. apply Forall_forall. intros row Hrow.
    apply in_map_iff in Hrow as [c [<- _]]. reflexivity.
Qed.

Lemma gdf_merged_keeps_regions (gdf : GeoDataFrame) (df : DataFrame) :
  len gdf <= len (gdf_merged gdf df) /\
  (forall name, In name (map m_NOMBRE_DPT (gdf_merged gdf df)) <->
                In name (nombres gdf)).
Proof.
  split.
  - unfold gdf_merged, len. rewrite !length_map.
    unfold normalizar_NOMBRE_DPT, merge_left.
    induction gdf as [|r gdf IH]; simpl; [lia|].
    rewrite length_app.
    destruct (merge_row_names (proyectos_por_depto df)
                {| NOMBRE_DPT := normalize (NOMBRE_DPT r);
                   geometry := geometry r |}) as [Hne _].
    destruct (merge_row _ _); [contradiction|]. simpl in *. lia.
  - intros name. rewrite names_gdf_merged, <- NOMBRE_DPT_normalizar.
    unfold merge_left. rewrite !in_map_iff. split.
    + intros [row [<- Hrow]]. apply in_flat_map in Hrow as [r [Hr Hrow]].
      exists r. split; [|exact Hr].
      destruct (merge_row_names (proyectos_por_depto df) r) as [_ Hall].
      rewrite Forall_forall in Hall. symmetry. exact (Hall row Hrow).
    + intros [r [<- Hr]].
      destruct (merge_row_names (proyectos_por_depto df) r) as [Hne Hall].
      destruct (merge_row (proyectos_por_depto df) r) as [|row rows] eqn:E;
        [contradiction|].
      exists row. split; [inversion Hall; assumption|].
      apply in_flat_map. exists r. split; [exact Hr|].
      rewrite E. left; reflexivity.
Qed.
End MergeShape.

(** C4, as amended.  For every region collection whose normalised names
    are pairwise distinct and every record collection, the counts of the
    merged frame add up to the number of records whose normalised
    department is the normalised name of some region; so the sum is at
    most [len(P)], and it is [len(P)] exactly when every record is such a
    record. *)
Theorem sum_counts_le_total
  (M : CaseMapping) (G : GeoBackend) (gdf : GeoDataFrame) (df : DataFrame) :
  NoDup (nombres gdf) ->
  sum_Z (counts (gdf_merged gdf df)) = len (filter (matched gdf) df) /\
  sum_Z (counts (gdf_merged gdf df)) <= len df /\
  (sum_Z (counts (gdf_merged gdf df)) = len df <->
   forallb (matched gdf) df = true).
Proof.
  intros Hnd.
  assert (E : sum_Z (counts (gdf_merged gdf df)) = len (filter (matched gdf) df))
    by (rewrite sum_counts_by_region; apply sum_count_for_matched, Hnd).
  rewrite E. split; [reflexivity|]. split.
  - apply len_filter_le.
  - apply len_filter_all.
Qed.

(** On the example of the specification the names are distinct, two of
    the three records are matched and the counts add up to two. *)
Lemma sum_counts_le_total_ejemplo :
  NoDup (nombres Ejemplo.regiones) /\
  sum_Z (counts (gdf_merged Ejemplo.regiones Ejemplo.proyectos)) = 2 /\
  sum_Z (counts (gdf_merged Ejemplo.regiones Ejemplo.proyectos))
  <= len Ejemplo.proyectos.
Proof.
  assert (Hnd : NoDup (nombres Ejemplo.regiones)).
  { vm_compute. repeat constructor; simpl; intuition discriminate. }
  destruct (sum_counts_le_total latin1 plain_geo Ejemplo.regiones
                                Ejemplo.proyectos Hnd) as [Esum [Hle _]].
  split; [exact Hnd|]. split; [|exact Hle].
  rewrite Esum. reflexivity.
Defined.

(** C4, as stated, fails: two features whose names normalise to the same
    string each receive the count of that string, so one record is
    counted twice and the sum exceeds [len(P)]. *)
Lemma sum_counts_exceeds_total :
  ~ (sum_Z (counts (gdf_merged Ejemplo.regiones_repetidas Ejemplo.un_proyecto))
     <= len Ejemplo.un_proyecto).
Proof. vm_compute. intros H. apply H. reflexivity. Qed.

(** C1, at the input where the code departs from it.  On the example of
    the specification (two regions; the records "Antioquia",
    "antioquia " and "Valle") the merged frame has three rows for two
    regions: the raw spellings are counted before their keys are
    normalised, so the count table holds the key "ANTIOQUIA" twice and
    the left merge repeats the region; the metric of line 135 then
    reports two departments with projects where there is one. *)
Theorem gdf_merged_repeats_region :
  len Ejemplo.regiones = 2 /\
  len (gdf_merged Ejemplo.regiones Ejemplo.proyectos) = 3 /\
  map m_NOMBRE_DPT (gdf_merged Ejemplo.regiones Ejemplo.proyectos)
  = [py "ANTIOQUIA"; py "ANTIOQUIA"; py "CHOCO"] /\
  departamentos_con_proyectos (gdf_merged Ejemplo.regiones Ejemplo.proyectos)
  = 2.
Proof. repeat split. Qed.

(** C2, at the input where the code departs from it.  The two spellings
    of Antioquia stay two rows of the count table, each with count 1, and
    the merged frame is [(ANTIOQUIA, 1); (ANTIOQUIA, 1); (CHOCO, 0)], not
    [(ANTIOQUIA, 2); (CHOCO, 0)]. *)
Theorem spellings_not_accumulated :
  filter (fun row => pystr_eqb (fst row) (py "ANTIOQUIA"))
         (proyectos_por_depto Ejemplo.proyectos)
  = [(py "ANTIOQUIA", 1); (py "ANTIOQUIA", 1)] /\
  name_counts (gdf_merged Ejemplo.regiones Ejemplo.proyectos)
  = [(py "ANTIOQUIA", 1); (py "ANTIOQUIA", 1); (py "CHOCO", 0)] /\
  name_counts (gdf_merged Ejemplo.regiones Ejemplo.proyectos)
  <> [(py "ANTIOQUIA", 2); (py "CHOCO", 0)].
Proof. repeat split. vm_compute. discriminate. Qed.

(** C3, at the input where the code departs from it.  Two records have
    the normalised department "ANTIOQUIA", yet every row of that region
    in the merged frame carries the count 1; the record of "Valle"
    gives no row, and all three records are in the total. *)
Theorem region_count_not_the_count_of_its_name :
  count_for Ejemplo.proyectos (py "ANTIOQUIA") = 2 /\
  counts (filter (fun row => pystr_eqb (m_NOMBRE_DPT row) (py "ANTIOQUIA"))
                 (gdf_merged Ejemplo.regiones Ejemplo.proyectos))
  = [1; 1] /\
  existsb (pystr_eqb (py "VALLE"))
          (map m_NOMBRE_DPT (gdf_merged Ejemplo.regiones Ejemplo.proyectos))
  = false /\
  total_de_proyectos Ejemplo.proyectos = 3.
Proof. repeat split. Qed.

(* ================================================================== *)
(** ** Facts about the count per year *)
(* ================================================================== *)

#[local] Arguments Z.add : simpl never.

Lemma group_insert_keys (y y' : Z) (t : list (Z * Z)) :
  In y (map fst (group_insert y' t)) <-> y = y' \/ In y (map fst t).
Proof.
  induction t as [|[k n] t IH]; simpl; [intuition|].
  destruct (y' <? k) eqn:E1; simpl; [intuition|].
  destruct (y' =? k) eqn:E2; simpl.
  - apply Z.eqb_eq in E2; subst. intuition.
  - rewrite IH. intuition.
Qed.

Lemma group_insert_HdRel (k y : Z) (t : list (Z * Z)) :
  k < y -> HdRel Z.lt k (map fst t) ->
  HdRel Z.lt k (map fst (group_insert y t)).
Proof.
  intros Hky Hhd. destruct t as [|[k' n] t]; simpl; [constructor; exact Hky|].
  inversion Hhd; subst.
  destruct (y <? k'); [constructor; exact Hky|].
  destruct (y =? k'); constructor; assumption.
Qed.

Lemma group_insert_sorted (y : Z) (t : list (Z * Z)) :
  Sorted Z.lt (map fst t) -> Sorted Z.lt (map fst (group_insert y t)).
Proof.
  induction t as [|[k n] t IH]; simpl; intros Hs.
  - repeat constructor.
  - inversion Hs as [|? ? Hs' Hhd]; subst.
    destruct (y <? k) eqn:E1.
    + apply Z.ltb_lt in E1. simpl. constructor; [exact Hs|].
      constructor; exact E1.
    + apply Z.ltb_ge in E1. destruct (y =? k) eqn:E2; simpl.
      * constructor; assumption.
      * apply Z.eqb_neq in E2. constructor; [apply IH, Hs'|].
        apply group_insert_HdRel; [lia | exact Hhd].
Qed.

Lemma group_insert_positive (y : Z) (t : list (Z * Z)) :
  Forall (fun row => 0 < snd row) t ->
  Forall (fun row => 0 < snd row) (group_insert y t).
Proof.
  induction 1 as [|[k n] t Hn Ht IH]; simpl.
  - repeat constructor.
  - destruct (y <? k); [repeat constructor; auto|].
    destruct (y =? k); constructor; simpl in *; auto; lia.
Qed.

Lemma year_total_group_insert (y y' : Z) (t : list (Z * Z)) :
  year_total (group_insert y' t) y
  = year_total t y + (if y' =? y then 1 else 0).
Proof.
  unfold year_total. induction t as [|[k n] t IH]; simpl.
  - destruct (y' =? y); reflexivity.
  - destruct (y' <? k) eqn:E1; simpl.
    + destruct (y' =? y); destruct (k =? y); simpl; lia.
    + destruct (y' =? k) eqn:E2; simpl.
      * apply Z.eqb_eq in E2; subst.
        destruct (k =? y); simpl; lia.
      * destruct (k =? y); simpl; rewrite IH; lia.
Qed.

Lemma sum_group_insert (y : Z) (t : list (Z * Z)) :
  sum_Z (map snd (group_insert y t)) = sum_Z (map snd t) + 1.
Proof.
  induction t as [|[k n] t IH]; simpl; [reflexivity|].
  destruct (y <? k); simpl; [lia|].
  destruct (y =? k); simpl; [lia | rewrite IH; lia].
Qed.

(** What the fold of [groupby_size] keeps true of its table. *)
Lemma groupby_fold (col : list (option Z)) (t : list (Z * Z)) :
  let t' := fold_left (fun t cell => match cell with
                                     | Some y => group_insert y t
                                     | None => t
                                     end) col t in
  (Sorted Z.lt (map fst t) -> Sorted Z.lt (map fst t')) /\
  (Forall (fun row => 0 < snd row) t -> Forall (fun row => 0 < snd row) t') /\
  (forall y, year_total t' y = year_total t y + len (filter (is_year y) col)) /\
  (forall y, In y (map fst t') <-> In y (map fst t) \/ In (Some y) col) /\
  sum_Z (map snd t') = sum_Z (map snd t) + len (dropna col).
Proof.
  revert t. induction col as [|cell col IH]; intros t; simpl.
  - repeat split; auto; try (unfold len; simpl; lia); intuition.
  - destruct (IH (match cell with Some y => group_insert y t | None => t end))
      as [Hs [Hp [Hc [Hk Hsum]]]].
    destruct cell as [y'|]; simpl.
    + repeat split.
      * intros H. apply Hs, group_insert_sorted, H.
      * intros H. apply Hp, group_insert_positive, H.
      * intros y. rewrite Hc, year_total_group_insert.
        destruct (y' =? y); rewrite ?len_cons; lia.
      * rewrite Hk, group_insert_keys. intros [[-> | H] | H]; auto.
      * rewrite Hk, group_insert_keys. intros [H | [E | H]]; auto.
        inversion E; auto.
      * rewrite Hsum, sum_group_insert, len_cons. lia.
    + repeat split; auto.
      * rewrite Hk. intros [H | H]; auto.
      * rewrite Hk. intros [H | [E | H]]; auto. discriminate E.
Qed.

Lemma year_total_above (y : Z) (t : list (Z * Z)) :
  Forall (fun k => y < k) (map fst t) -> year_total t y = 0.
Proof.
  unfold year_total. induction t as [|[k n] t IH]; simpl; intros H;
    [reflexivity|].
  inversion H; subst. destruct (k =? y) eqn:E; [apply Z.eqb_eq in E; lia|].
  apply IH; assumption.
Qed.

(** In a table with increasing years, the count of a row is the total of
    its year. *)
Lemma year_total_sorted (t : list (Z * Z)) (y n : Z) :
  StronglySorted Z.lt (map fst t) -> In (y, n) t -> year_total t y = n.
Proof.
  induction t as [|[k m] t IH]; simpl; intros Hs Hin; [contradiction|].
  inversion Hs as [|? ? Hs' Hall]; subst.
  unfold year_total. simpl.
  destruct Hin as [E | Hin].
  - inversion E; subst. rewrite Z.eqb_refl. simpl.
    fold (year_total t y). rewrite year_total_above by exact Hall. lia.
  - assert (k < y).
    { rewrite Forall_forall in Hall. apply Hall.
      apply (in_map fst) in Hin. exact Hin. }
    destruct (k =? y) eqn:E; [apply Z.eqb_eq in E; lia|].
    apply IH; assumption.
Qed.

(** Sorting a table that is already in increasing order of year leaves
    it as it is. *)
Lemma sort_values_sorted (t : list (Z * Z)) :
  Sorted Z.lt (map fst t) -> sort_values t = t.
Proof.
  induction t as [|x t IH]; simpl; intros Hs; [reflexivity|].
  inversion Hs as [|? ? Hs' Hhd]; subst. rewrite (IH Hs').
  destruct t as [|x' t]; [reflexivity|]. simpl.
  inversion Hhd; subst.
  destruct (fst x <=? fst x') eqn:E; [reflexivity|].
  apply Z.leb_gt in E. lia.
Qed.

Lemma StronglySorted_lt_NoDup (l : list Z) : StronglySorted Z.lt l -> NoDup l.
Proof.
  induction 1 as [|k l Hs IH Hall]; constructor; [|exact IH].
  intros Hin. rewrite Forall_forall in Hall. specialize (Hall k Hin). lia.
Qed.

Lemma df_excel_clean_idem (df : DataFrame) :
  df_excel_clean (df_excel_clean df) = df_excel_clean df.
Proof.
  unfold df_excel_clean. induction df as [|p df IH]; simpl; [reflexivity|].
  destruct (Año_de_publicación p) eqn:E; simpl; [rewrite E, IH|]; auto.
Qed.

Lemma count_year_clean (df : DataFrame) (y : Z) :
  len (filter (is_year y) (map Año_de_publicación (df_excel_clean df)))
  = count_year df y.
Proof.
  unfold count_year, df_excel_clean.
  induction df as [|p df IH]; simpl; [reflexivity|].
  destruct (Año_de_publicación p) as [y'|] eqn:E; simpl; [|exact IH].
  rewrite E. simpl. destruct (y' =? y); rewrite ?len_cons, IH; reflexivity.
Qed.

Lemma year_in_clean (df : DataFrame) (y : Z) :
  In (Some y) (map Año_de_publicación (df_excel_clean df)) <->
  exists p, In p df /\ Año_de_publicación p = Some y.
Proof.
  rewrite in_map_iff. unfold df_excel_clean. split.
  - intros [p [E Hp]]. apply filter_In in Hp as [Hp _]. eauto.
  - intros [p [Hp E]]. exists p. split; [exact E|].
    apply filter_In. split; [exact Hp | rewrite E; reflexivity].
Qed.

Lemma len_dropna_clean (df : DataFrame) :
  len (dropna (map Año_de_publicación (df_excel_clean df)))
  = len (df_excel_clean df).
Proof.
  unfold df_excel_clean. induction df as [|p df IH]; simpl; [reflexivity|].
  destruct (Año_de_publicación p) eqn:E; simpl; [|exact IH].
  rewrite E, !len_cons, IH. reflexivity.
Qed.

(** The year table is what [groupby_size] makes: the final sort finds it
    in order. *)
Lemma proyectos_por_año_groupby (df : DataFrame) :
  proyectos_por_año df
  = groupby_size (map Año_de_publicación (df_excel_clean df)) /\
  Sorted Z.lt (map fst (proyectos_por_año df)).
Proof.
  unfold proyectos_por_año.
  destruct (groupby_fold (map Año_de_publicación (df_excel_clean df)) [])
    as [Hs _].
  specialize (Hs (Sorted_nil _)). fold (groupby_size
    (map Año_de_publicación (df_excel_clean df))) in Hs.
  rewrite (sort_values_sorted _ Hs). split; [reflexivity | exact Hs].
Qed.

(** C5.  For every record collection, the years of the per-year table are
    strictly increasing, so no two rows share a year; every row has a
    positive count, which is the number of records published in that
    year, and its year is the year of some record; records without a year
    play no part: the table of the whole collection is the table of the
    records that have a year, and its counts add up to their number. *)
Theorem proyectos_por_anio_increasing_positive (df : DataFrame) :
  StronglySorted Z.lt (map fst (proyectos_por_año df)) /\
  NoDup (map fst (proyectos_por_año df)) /\
  Forall (fun row =>
            0 < snd row /\
            snd row = count_year df (fst row) /\
            exists p, In p df /\ Año_de_publicación p = Some (fst row))
         (proyectos_por_año df) /\
  proyectos_por_año df = proyectos_por_año (df_excel_clean df) /\
  sum_Z (map snd (proyectos_por_año df)) = len (df_excel_clean df).
Proof.
  destruct (proyectos_por_año_groupby df) as [E Hs].
  assert (Hss : StronglySorted Z.lt (map fst (proyectos_por_año df))).
  { apply Sorted_StronglySorted; [|exact Hs].
    intros a b c Hab Hbc. exact (Z.lt_trans _ _ _ Hab Hbc). }
  destruct (groupby_fold (map Año_de_publicación (df_excel_clean df)) [])
    as [_ [Hp [Hc [Hk Hsum]]]].
  fold (groupby_size (map Año_de_publicación (df_excel_clean df))) in Hp, Hc, Hk, Hsum.
  rewrite <- E in Hp, Hc, Hk, Hsum.
  split; [exact Hss|]. split; [apply StronglySorted_lt_NoDup, Hss|].
  split; [|split].
  - specialize (Hp (Forall_nil _)). rewrite Forall_forall in Hp.
    apply Forall_forall. intros [y n] Hrow. simpl.
    split; [exact (Hp _ Hrow)|]. split.
    + rewrite <- (year_total_sorted _ y n Hss Hrow), Hc, count_year_clean.
      unfold year_total. simpl. lia.
    + apply year_in_clean.
      destruct (Hk y) as [Hin _].
      destruct (Hin (in_map fst _ _ Hrow)) as [[] | Hcol]. exact Hcol.
  - unfold proyectos_por_año. rewrite df_excel_clean_idem. reflexivity.
  - rewrite Hsum, len_dropna_clean. simpl. lia.
Qed.

(** The example of the specification: years 2020, 2019, 2020 and a
    missing one give [(2019, 1); (2020, 2)]. *)
Example proyectos_por_anio_ejemplo :
  proyectos_por_año Ejemplo.por_años = [(2019, 1); (2020, 2)].
Proof. reflexivity. Qed.

(* ================================================================== *)
(** ** Facts about the loader and the page *)
(* ================================================================== *)

Section LoaderFacts.
Context {M : CaseMapping} {G : GeoBackend} {T : TitleCase}.

(** What [cargar_datos] does, by cases on the two readers. *)
Lemma cargar_datos_cases (w : World) (page : list Widget) :
  cargar_datos w page =
  match read_file w "datos/departamentos/Colombia.geo.json" with
  | Raised e =>
      (Returned (None, None),
       page ++ [st_error ("❌ Error al cargar los datos: " ++ e)])
  | Returned gdf =>
      match read_excel w "datos/proyectos/proyecto_colombia.xlsx" with
      | Raised e =>
          (Returned (None, None),
           page ++ [st_error ("❌ Error al cargar los datos: " ++ e)])
      | Returned df_excel => (Returned (Some gdf, Some df_excel), page)
      end
  end.
Proof.
  unfold cargar_datos, try_except, bind, gpd_read_file, pd_read_excel, ret, show.
  destruct (read_file w _); [|reflexivity].
  destruct (read_excel w _); reflexivity.
Qed.

(** The diagnostic panel: five widgets, none of them a data widget. *)
Lemma aviso_widgets (w : World) (page : list Widget) :
  exists extra,
    aviso w page = (Returned tt, page ++ extra) /\
    existsb is_data_widget extra = false.
Proof.
  unfold aviso, bind, show. eexists. split.
  - rewrite <- !app_assoc. simpl. reflexivity.
  - reflexivity.
Qed.

(** The data branch when lines 46 and 47 run through: the two charts, the
    metrics and the summary table, in that order. *)
Lemma tablero_runs (gdf : GeoDataFrame) (df : DataFrame)
      (w : World) (page : list Widget) :
  Departamento_sin_cadenas df = false -> gdf <> [] ->
  tablero gdf df w page
  = (Returned tt,
     page ++ [st_plotly_chart_mapa (gdf_merged gdf df);
              st_plotly_chart_linea (proyectos_por_año df);
              st_metric "Total de Proyectos" (len df);
              st_metric "Departamentos con Proyectos"
                        (departamentos_con_proyectos (gdf_merged gdf df));
              st_metric_rango "Rango de Años" (rango_de_años df)]
          ++ match departamento_con_mas_proyectos (proyectos_por_depto df) with
             | Some label =>
                 [st_metric_texto "Departamento con Más Proyectos" label]
             | None => []
             end
          ++ [st_dataframe (tabla_resumen (proyectos_por_depto df))]).
Proof.
  intros H46 H47. unfold tablero, linea_46, linea_47, bind at 1. rewrite H46.
  unfold ret at 1. unfold bind at 1.
  destruct gdf as [|r gdf]; [contradiction|]. unfold ret at 1.
  unfold procesar, total_de_proyectos, metrica_dept_max. simpl.
  destruct (departamento_con_mas_proyectos (proyectos_por_depto df));
    unfold bind, show, ret; simpl; rewrite <- ?app_assoc; reflexivity.
Qed.

(** The data branch when line 46 or line 47 raises: nothing is shown. *)
Lemma tablero_raises (gdf : GeoDataFrame) (df : DataFrame)
      (w : World) (page : list Widget) :
  tablero gdf df w page
  = if Departamento_sin_cadenas df
    then (Raised "Can only use .str accessor with string values!", page)
    else match gdf with
         | [] => (Raised "'NOMBRE_DPT'", page)
         | _ :: _ => tablero gdf df w page
         end.
Proof.
  unfold tablero, linea_46, linea_47, bind at 1.
  destruct (Departamento_sin_cadenas df); [reflexivity|].
  destruct gdf; reflexivity.
Qed.
End LoaderFacts.

(** C6.  Whenever one of the two readers raises, [cargar_datos] returns
    the pair [(None, None)] instead of raising, after showing the message
    of the exception; the script then returns normally too, and the page
    gets the diagnostic panel and no chart or metric. *)
Theorem cargar_datos_returns_sentinel
  (M : CaseMapping) (G : GeoBackend) (T : TitleCase)
  (w : World) (page : list Widget) :
  load_fails w ->
  (exists e,
      cargar_datos w page
      = (Returned (None, None),
         page ++ [st_error ("❌ Error al cargar los datos: " ++ e)])) /\
  (exists extra,
      app w page = (Returned tt, page ++ extra) /\
      existsb is_data_widget extra = false).
Proof.
  intros Hfail.
  assert (Hload : exists e,
             cargar_datos w page
             = (Returned (None, None),
                page ++ [st_error ("❌ Error al cargar los datos: " ++ e)])).
  { rewrite cargar_datos_cases. destruct Hfail as [[e E] | [e E]].
    - rewrite E. eauto.
    - destruct (read_file w _); [rewrite E|]; eauto. }
  split; [exact Hload|].
  destruct Hload as [e E]. unfold app, bind. rewrite E.
  change (pagina (fst (@None GeoDataFrame, @None DataFrame))
                 (snd (@None GeoDataFrame, @None DataFrame))) with aviso.
  destruct (aviso_widgets w (page ++ [st_error ("❌ Error al cargar los datos: " ++ e)]))
    as [extra [Ea Hd]].
  exists ([st_error ("❌ Error al cargar los datos: " ++ e)] ++ extra).
  rewrite Ea, app_assoc. split; [reflexivity|].
  simpl. exact Hd.
Qed.

(** With the boundary file read and the spreadsheet missing, the loader
    gives the sentinel and the page is the diagnostic panel. *)
Lemma cargar_datos_sin_excel :
  load_fails Ejemplo.sin_excel /\
  fst (cargar_datos Ejemplo.sin_excel []) = Returned (None, None) /\
  fst (app Ejemplo.sin_excel []) = Returned tt.
Proof.
  assert (Hfail : load_fails Ejemplo.sin_excel).
  { right. exists "No such file"%string. reflexivity. }
  destruct (cargar_datos_returns_sentinel latin1 plain_geo latin1_title
                                          Ejemplo.sin_excel [] Hfail)
    as [[e E] [extra [Ea _]]].
  split; [exact Hfail|]. split.
  - rewrite E. reflexivity.
  - rewrite Ea. reflexivity.
Defined.


(** C9, as amended.  Processing overwrites the name of every region with
    its normalised form and changes nothing else of the loaded frames:
    the regions keep their number, their order and their geometries, the
    records are untouched, and a frame whose names are already normalised
    is left as it was. *)
Theorem procesar_normalises_names
  (M : CaseMapping) (G : GeoBackend) (gdf : GeoDataFrame) (df : DataFrame) :
  len (v_gdf (procesar gdf df)) = len gdf /\
  map geometry (v_gdf (procesar gdf df)) = map geometry gdf /\
  map NOMBRE_DPT (v_gdf (procesar gdf df))
  = map normalize (map NOMBRE_DPT gdf) /\
  v_df_excel (procesar gdf df) = df /\
  (Forall (fun r => normalize (NOMBRE_DPT r) = NOMBRE_DPT r) gdf ->
   v_gdf (procesar gdf df) = gdf).
Proof.
  simpl. unfold normalizar_NOMBRE_DPT, len.
  rewrite length_map, !map_map.
  split; [reflexivity|]. split; [reflexivity|]. split; [reflexivity|].
  split; [reflexivity|].
  induction 1 as [|r gdf' Hr _ IH]; simpl; [reflexivity|].
  rewrite Hr, IH. destruct r; reflexivity.
Qed.

(** The regions of the specification's example have normalised names:
    processing leaves that frame as it was. *)
Lemma procesar_keeps_normalised_names :
  Forall (fun r => normalize (NOMBRE_DPT r) = NOMBRE_DPT r) Ejemplo.regiones /\
  v_gdf (procesar Ejemplo.regiones Ejemplo.proyectos) = Ejemplo.regiones.
Proof.
  assert (H : Forall (fun r => normalize (NOMBRE_DPT r) = NOMBRE_DPT r)
                     Ejemplo.regiones) by (repeat constructor).
  split; [exact H|].
  apply (procesar_normalises_names latin1 plain_geo Ejemplo.regiones
                                   Ejemplo.proyectos); exact H.
Defined.

(** C9, as stated, fails: line 47 writes the upper-cased, stripped name
    back into the loaded frame, so a region loaded as "Antioquia" is
    "ANTIOQUIA" afterwards. *)
Lemma procesar_overwrites_name :
  map NOMBRE_DPT Ejemplo.sin_normalizar = [py "Antioquia"] /\
  map NOMBRE_DPT (v_gdf (procesar Ejemplo.sin_normalizar Ejemplo.proyectos))
  = [py "ANTIOQUIA"] /\
  v_gdf (procesar Ejemplo.sin_normalizar Ejemplo.proyectos)
  <> Ejemplo.sin_normalizar.
Proof.
  split; [reflexivity|]. split; [reflexivity|].
  intros H. apply (f_equal (map NOMBRE_DPT)) in H. vm_compute in H.
  discriminate H.
Qed.

(* ================================================================== *)
(** ** More about the count table *)
(* ================================================================== *)

Lemma bump_keys (k k' : pystr) (t : list (pystr * Z)) :
  In k' (map fst (bump k t)) <-> k' = k \/ In k' (map fst t).
Proof.
  induction t as [|[k0 n] t IH]; simpl; [intuition|].
  destruct (pystr_eqb k k0) eqn:E; simpl.
  - apply pystr_eqb_eq in E; subst. intuition.
  - rewrite IH. intuition.
Qed.

Lemma bump_NoDup (k : pystr) (t : list (pystr * Z)) :
  NoDup (map fst t) -> NoDup (map fst (bump k t)).
Proof.
  induction t as [|[k0 n] t IH]; simpl; intros Hnd.
  - repeat constructor. intros [].
  - apply NoDup_cons_iff in Hnd as [Hk0 Hnd].
    destruct (pystr_eqb k k0) eqn:E; simpl.
    + constructor; assumption.
    + constructor; [|apply IH, Hnd].
      rewrite bump_keys. intros [-> | Hin]; [|contradiction].
      rewrite pystr_eqb_refl in E. discriminate E.
Qed.

Lemma tally_keys (col : list pystr) :
  NoDup (map fst (tally col)) /\
  (forall k, In k (map fst (tally col)) <-> In k col).
Proof.
  unfold tally.
  assert (H : forall l t,
             NoDup (map fst t) ->
             NoDup (map fst (fold_left (fun t k => bump k t) l t)) /\
             (forall k, In k (map fst (fold_left (fun t k => bump k t) l t))
                        <-> In k (map fst t) \/ In k l)).
  { induction l as [|d l IH]; intros t Hnd; simpl.
    - split; [exact Hnd | intuition].
    - destruct (IH (bump d t) (bump_NoDup d t Hnd)) as [H1 H2].
      split; [exact H1|]. intros k. rewrite H2, bump_keys. intuition. }
  destruct (H col [] (NoDup_nil _)) as [H1 H2].
  split; [exact H1|]. intros k. rewrite H2. simpl. intuition.
Qed.

Lemma insert_desc_perm (x : pystr * Z) (t : list (pystr * Z)) :
  Permutation (insert_desc x t) (x :: t).
Proof.
  induction t as [|y t IH]; simpl; [reflexivity|].
  destruct (snd y <=? snd x); [reflexivity|].
  rewrite IH. apply perm_swap.
Qed.

Lemma sort_desc_perm (t : list (pystr * Z)) : Permutation (sort_desc t) t.
Proof.
  induction t as [|x t IH]; simpl; [constructor|].
  rewrite insert_desc_perm. constructor. exact IH.
Qed.

Lemma insert_desc_sorted (x : pystr * Z) (t : list (pystr * Z)) :
  Sorted more_first t -> Sorted more_first (insert_desc x t).
Proof.
  induction t as [|y t IH]; simpl; intros Hs; [repeat constructor|].
  inversion Hs as [|? ? Hs' Hhd]; subst.
  destruct (snd y <=? snd x) eqn:E.
  - apply Z.leb_le in E. constructor; [exact Hs|]. constructor. exact E.
  - apply Z.leb_gt in E. constructor; [apply IH, Hs'|].
    destruct t as [|z t]; simpl.
    + constructor. unfold more_first. lia.
    + inversion Hhd; subst.
      destruct (snd z <=? snd x); constructor; unfold more_first in *;
        [lia | assumption].
Qed.

Lemma sort_desc_sorted (t : list (pystr * Z)) :
  StronglySorted more_first (sort_desc t).
Proof.
  apply Sorted_StronglySorted.
  - intros a b c Hab Hbc. unfold more_first in *. lia.
  - induction t as [|x t IH]; simpl; [constructor|].
    apply insert_desc_sorted, IH.
Qed.

(** Re-keying a table keeps its counts where they are. *)
Lemma map_key_sorted (f : pystr -> pystr) (t : list (pystr * Z)) :
  StronglySorted more_first t ->
  StronglySorted more_first (map (fun row => (f (fst row), snd row)) t).
Proof.
  induction 1 as [|x t Hs IH Hall]; simpl; constructor; [exact IH|].
  rewrite Forall_forall in *. intros y Hy.
  apply in_map_iff in Hy as [y0 [<- Hy0]]. exact (Hall y0 Hy0).
Qed.

Lemma weighted_one (t : list (pystr * Z)) :
  weighted (fun _ => 1) t = sum_Z (map snd t).
Proof.
  unfold weighted. f_equal. apply map_ext. intros row. lia.
Qed.

(** In a table with distinct keys, the row of a key weighs its count. *)
Lemma weighted_key_NoDup (t : list (pystr * Z)) (k : pystr) (n : Z) :
  NoDup (map fst t) -> In (k, n) t ->
  weighted (fun key => if pystr_eqb key k then 1 else 0) t = n.
Proof.
  unfold weighted. induction t as [|[k0 n0] t IH]; simpl; intros Hnd Hin;
    [contradiction|].
  apply NoDup_cons_iff in Hnd as [Hk0 Hnd].
  destruct Hin as [E | Hin].
  - inversion E; subst. rewrite pystr_eqb_refl.
    assert (H0 : sum_Z (map (fun row : pystr * Z =>
                   (if pystr_eqb (fst row) k then 1 else 0) * snd row) t) = 0).
    { clear IH Hnd. induction t as [|[k1 n1] t IH]; simpl; [reflexivity|].
      simpl in Hk0. destruct (pystr_eqb k1 k) eqn:E1.
      - apply pystr_eqb_eq in E1. exfalso. apply Hk0. left. exact E1.
      - rewrite IH; [lia|]. intros H. apply Hk0. right. exact H. }
    rewrite H0. lia.
  - destruct (pystr_eqb k0 k) eqn:E.
    + apply pystr_eqb_eq in E; subst. exfalso. apply Hk0.
      apply (in_map fst) in Hin. exact Hin.
    + rewrite (IH Hnd Hin). lia.
Qed.

Lemma occurrences_sum (k : pystr) (col : list (option pystr)) :
  sum_Z (map (fun key => if pystr_eqb key k then 1 else 0) (dropna col))
  = occurrences k col.
Proof.
  unfold occurrences. induction col as [|[d|] col IH]; simpl; [reflexivity| |].
  - destruct (pystr_eqb d k); rewrite ?len_cons, IH; lia.
  - exact IH.
Qed.

Lemma In_dropna {A : Type} (a : A) (col : list (option A)) :
  In a (dropna col) <-> In (Some a) col.
Proof.
  induction col as [|[b|] col IH]; simpl; [reflexivity| |].
  - rewrite IH. split; intros [E | H]; auto; left; congruence.
  - rewrite IH. split; [auto | intros [E | H]; [discriminate E | exact H]].
Qed.

Lemma len_dropna_sum {A : Type} (col : list (option A)) :
  len (dropna col) = sum_Z (map (fun _ => 1) (dropna col)).
Proof.
  induction (dropna col) as [|a l IH]; simpl; [reflexivity|].
  rewrite len_cons, IH. reflexivity.
Qed.

Lemma value_counts_keys (col : list (option pystr)) :
  NoDup (map fst (value_counts col)) /\
  (forall k, In k (map fst (value_counts col)) <-> In (Some k) col).
Proof.
  unfold value_counts.
  pose proof (sort_desc_perm (tally (dropna col))) as Hp.
  destruct (tally_keys (dropna col)) as [Hnd Hk].
  split.
  - apply (Permutation_NoDup (l := map fst (tally (dropna col))));
      [|exact Hnd]. apply Permutation_map. symmetry. exact Hp.
  - intros k. rewrite <- In_dropna, <- Hk.
    split; apply Permutation_in; apply Permutation_map;
      [exact Hp | symmetry; exact Hp].
Qed.

(** X1.  [value_counts()] gives one row per distinct string of the column:
    no key appears twice, every row is the string of some cell and carries
    the number of cells that hold exactly that string (at least one), and
    every cell that is present has its row. *)
Theorem value_counts_counts_each_string (col : list (option pystr)) :
  NoDup (map fst (value_counts col)) /\
  Forall (fun row => In (Some (fst row)) col /\
                     snd row = occurrences (fst row) col /\
                     0 < snd row) (value_counts col) /\
  Forall (fun cell => match cell with
                      | Some d => In d (map fst (value_counts col))
                      | None => True
                      end) col.
Proof.
  destruct (value_counts_keys col) as [Hnd Hk].
  split; [exact Hnd|]. split.
  - pose proof (value_counts_positive col) as Hpos.
    rewrite Forall_forall in *. intros [k n] Hrow. simpl.
    split; [apply Hk; exact (in_map fst _ _ Hrow)|].
    split; [|exact (Hpos _ Hrow)].
    rewrite <- (weighted_key_NoDup _ k n Hnd Hrow), weighted_value_counts.
    apply occurrences_sum.
  - apply Forall_forall. intros [d|] Hcell; [|exact I].
    apply Hk. exact Hcell.
Qed.

(** X2.  The count table is in decreasing order of count, so the row that
    line 145 takes as the top department has a count no other row
    exceeds; there is no such row exactly when no record has a
    department. *)
Theorem dept_max_has_most (M : CaseMapping) (df : DataFrame) :
  StronglySorted more_first (proyectos_por_depto df) /\
  match dept_max (proyectos_por_depto df) with
  | Some top =>
      In top (proyectos_por_depto df) /\
      Forall (fun row => snd row <= snd top) (proyectos_por_depto df) /\
      existsb has_Departamento df = true
  | None => existsb has_Departamento df = false
  end.
Proof.
  assert (Hs : StronglySorted more_first (proyectos_por_depto df)).
  { unfold proyectos_por_depto, value_counts.
    apply map_key_sorted, sort_desc_sorted. }
  split; [exact Hs|].
  assert (Hsum : sum_Z (map snd (proyectos_por_depto df))
                 = len (filter has_Departamento df)).
  { unfold proyectos_por_depto. rewrite map_map. simpl.
    rewrite <- weighted_one, weighted_value_counts.
    rewrite sum_dropna_Departamento, len_filter_sum.
    f_equal. apply map_ext. intros p. unfold has_Departamento.
    destruct (Departamento p); reflexivity. }
  destruct (proyectos_por_depto df) as [|top rest] eqn:E; simpl.
  - simpl in Hsum. clear E Hs.
    induction df as [|p df IH]; simpl in *; [reflexivity|].
    destruct (has_Departamento p); simpl.
    + rewrite len_cons in Hsum. pose proof (len_filter_le has_Departamento df).
      unfold len in *. lia.
    + apply IH, Hsum.
  - split; [left; reflexivity|]. split.
    + inversion Hs as [|? ? _ Hall]; subst. constructor; [lia|].
      exact Hall.
    + assert (Hpos : 0 < snd top).
      { pose proof (value_counts_positive (map Departamento df)) as Hp.
        unfold proyectos_por_depto in E.
        destruct (value_counts (map Departamento df)) as [|r0 t0];
          [discriminate E|].
        inversion Hp; subst. inversion E; subst. simpl. assumption. }
      destruct (existsb has_Departamento df) eqn:Ex; [reflexivity|].
      exfalso.
      assert (H0 : filter has_Departamento df = []).
      { clear -Ex. induction df as [|p df IH]; simpl in *; [reflexivity|].
        apply orb_false_iff in Ex as [Hp Hr]. rewrite Hp. apply IH, Hr. }
      rewrite H0 in Hsum. simpl in Hsum.
      assert (0 <= sum_Z (map snd rest)).
      { assert (Hp : Forall (fun row => 0 < snd row) (top :: rest)).
        { rewrite <- E. unfold proyectos_por_depto.
          apply Forall_forall. intros row Hrow.
          apply in_map_iff in Hrow as [r0 [<- Hr0]]. simpl.
          pose proof (value_counts_positive (map Departamento df)) as Hp.
          rewrite Forall_forall in Hp. exact (Hp _ Hr0). }
        inversion Hp as [|? ? _ Hrest]; subst. clear -Hrest.
        induction Hrest; simpl; lia. }
      unfold len in Hsum. simpl in Hsum. lia.
Qed.

(** X3.  The counts of the count table add up to the number of records
    that have a department: never more than the total the first metric
    shows, and equal to it exactly when no record lacks its department. *)
Theorem proyectos_por_depto_total (M : CaseMapping) (df : DataFrame) :
  sum_Z (map snd (proyectos_por_depto df)) = len (filter has_Departamento df) /\
  sum_Z (map snd (proyectos_por_depto df)) <= total_de_proyectos df /\
  (sum_Z (map snd (proyectos_por_depto df)) = total_de_proyectos df <->
   forallb has_Departamento df = true).
Proof.
  assert (Hsum : sum_Z (map snd (proyectos_por_depto df))
                 = len (filter has_Departamento df)).
  { unfold proyectos_por_depto. rewrite map_map. simpl.
    rewrite <- weighted_one, weighted_value_counts.
    rewrite sum_dropna_Departamento, len_filter_sum.
    f_equal. apply map_ext. intros p. unfold has_Departamento.
    destruct (Departamento p); reflexivity. }
  rewrite Hsum. unfold total_de_proyectos.
  split; [reflexivity|]. split; [apply len_filter_le | apply len_filter_all].
Qed.

(* ================================================================== *)
(** ** More about normalisation *)
(* ================================================================== *)

Lemma lstrip_length (s : pystr) : (List.length (lstrip s) <= List.length s)%nat.
Proof.
  induction s as [|c s IH]; simpl; [lia|].
  destruct (isspace c); simpl; lia.
Qed.

Lemma lstrip_fixed_head (c : codepoint) (s : pystr) :
  lstrip (c :: s) = c :: s <-> isspace c = false.
Proof.
  simpl. destruct (isspace c); split; try reflexivity; try discriminate.
  intros E. pose proof (lstrip_length s) as H. rewrite E in H. simpl in H. lia.
Qed.

Lemma last_cons_default (e c d : codepoint) (s : pystr) :
  last (e :: s) c = last (e :: s) d.
Proof.
  revert e. induction s as [|x s IH]; intros e; [reflexivity|].
  change (last (x :: s) c = last (x :: s) d). apply IH.
Qed.

Lemma rev_cons_last (c : codepoint) (s : pystr) :
  exists s', rev (c :: s) = last s c :: s'.
Proof.
  revert c. induction s as [|d s IH]; intros c.
  - exists []. reflexivity.
  - destruct (IH d) as [s' E]. exists (s' ++ [c]).
    change (rev (c :: d :: s)) with (rev (d :: s) ++ [c]). rewrite E.
    destruct s as [|x s]; [reflexivity|].
    rewrite (last_cons_default x d c). reflexivity.
Qed.

Lemma rstrip_fixed_last (c : codepoint) (s : pystr) :
  rstrip (c :: s) = c :: s <-> isspace (last s c) = false.
Proof.
  destruct (rev_cons_last c s) as [s' E]. unfold rstrip. rewrite E.
  rewrite <- (lstrip_fixed_head (last s c) s'). split; intros H.
  - apply (f_equal (@rev codepoint)) in H.
    rewrite rev_involutive, E in H. exact H.
  - rewrite H, <- E. apply rev_involutive.
Qed.

Lemma trimmed_iff (s : pystr) :
  trimmed s = true <-> lstrip s = s /\ rstrip s = s.
Proof.
  destruct s as [|c s]; [split; [split|]; reflexivity|].
  rewrite lstrip_fixed_head, rstrip_fixed_last. unfold trimmed.
  rewrite andb_true_iff, !negb_true_iff. reflexivity.
Qed.

Lemma strip_trimmed (s : pystr) : trimmed (strip s) = true.
Proof.
  apply trimmed_iff. unfold strip. split.
  - apply lstrip_rstrip_lstrip.
  - apply rstrip_idem.
Qed.

Lemma strip_of_trimmed (s : pystr) : trimmed s = true -> strip s = s.
Proof.
  intros H. apply trimmed_iff in H as [Hl Hr]. unfold strip.
  rewrite Hl. exact Hr.
Qed.

Lemma strip_split (s : pystr) :
  exists l r, blank l = true /\ blank r = true /\ s = l ++ strip s ++ r.
Proof.
  destruct (lstrip_split s) as [l [Hl El]].
  destruct (rstrip_split (lstrip s)) as [r [Hr Er]].
  exists l, r. split; [exact Hl|]. split; [exact Hr|].
  unfold strip. rewrite <- Er. exact El.
Qed.

(** X4.  The normalised form of a string is its upper-cased form with
    white space removed at the two ends and nowhere else: it has no white
    space at either end, the upper-cased string is it with white space
    before and after, it is empty exactly when the string holds nothing
    but white space, and a string that is already trimmed is only
    upper-cased. *)
Theorem normalize_trims_upper (M : CaseMapping) (s : pystr) :
  trimmed (normalize s) = true /\
  (exists l r, blank l = true /\ blank r = true /\
               upper s = l ++ normalize s ++ r) /\
  (normalize s = [] <-> blank (upper s) = true) /\
  (trimmed (upper s) = true -> normalize s = upper s).
Proof.
  unfold normalize. split; [apply strip_trimmed|].
  split; [apply strip_split|]. split; [|apply strip_of_trimmed].
  split.
  - intros E. destruct (strip_split (upper s)) as [l [r [Hl [Hr Es]]]].
    rewrite E in Es. rewrite Es, !blank_app, Hl, Hr. reflexivity.
  - intros H. unfold strip. rewrite (lstrip_blank _ H). reflexivity.
Qed.

(* ================================================================== *)
(** ** More about the merged frame *)
(* ================================================================== *)

Section MergedRows.
Context {M : CaseMapping} {G : GeoBackend}.

Lemma proyectos_por_depto_positive (df : DataFrame) :
  Forall (fun row => 0 < snd row) (proyectos_por_depto df).
Proof.
  unfold proyectos_por_depto. apply Forall_forall. intros row Hrow.
  apply in_map_iff in Hrow as [r0 [<- Hr0]]. simpl.
  pose proof (value_counts_positive (map Departamento df)) as Hp.
  rewrite Forall_forall in Hp. exact (Hp _ Hr0).
Qed.

(** The keys of the count table are the normalised departments of the
    records. *)
Lemma proyectos_por_depto_keys (df : DataFrame) (name : pystr) :
  In name (map fst (proyectos_por_depto df)) <->
  existsb (is_of name) df = true.
Proof.
  unfold proyectos_por_depto. rewrite map_map. simpl.
  rewrite in_map_iff, existsb_exists. split.
  - intros [[k n] [E Hrow]]. simpl in E.
    destruct (value_counts_keys (map Departamento df)) as [_ Hk].
    apply (in_map fst) in Hrow. apply Hk in Hrow.
    apply in_map_iff in Hrow as [p [Ep Hp]]. exists p. split; [exact Hp|].
    unfold is_of. rewrite Ep. simpl. rewrite E. apply pystr_eqb_refl.
  - intros [p [Hp Hof]]. unfold is_of in Hof.
    destruct (Departamento p) as [d|] eqn:Ed; [|discriminate].
    apply pystr_eqb_eq in Hof.
    destruct (value_counts_keys (map Departamento df)) as [_ Hk].
    assert (Hin : In d (map fst (value_counts (map Departamento df)))).
    { apply Hk. rewrite <- Ed. apply in_map, Hp. }
    apply in_map_iff in Hin as [row [Erow Hrow]]. exists row.
    split; [rewrite Erow; exact Hof | exact Hrow].
Qed.

(** The rows the merge makes for one region. *)
Lemma In_merge_row (t : list (pystr * Z)) (r : Region) (row : MergedRow (option Z)) :
  In row (merge_row t r) <->
  (row = mkMerged (NOMBRE_DPT r) (geometry r) None None /\
   ~ In (NOMBRE_DPT r) (map fst t)) \/
  (exists n, In (NOMBRE_DPT r, n) t /\
             row = mkMerged (NOMBRE_DPT r) (geometry r)
                            (Some (NOMBRE_DPT r)) (Some n)).
Proof.
  unfold merge_row.
  destruct (filter (fun c => pystr_eqb (NOMBRE_DPT r) (fst c)) t)
    as [|hit hits] eqn:F.
  - simpl. split.
    + intros [<- | []]. left. split; [reflexivity|].
      intros Hin. apply in_map_iff in Hin as [c [Ec Hc]].
      assert (Hf : In c (filter (fun c => pystr_eqb (NOMBRE_DPT r) (fst c)) t)).
      { apply filter_In. split; [exact Hc|]. rewrite Ec. apply pystr_eqb_refl. }
      rewrite F in Hf. exact Hf.
    + intros [[-> _] | [n [Hn _]]]; [left; reflexivity|].
      exfalso.
      assert (Hf : In (NOMBRE_DPT r, n)
                      (filter (fun c => pystr_eqb (NOMBRE_DPT r) (fst c)) t)).
      { apply filter_In. split; [exact Hn | apply pystr_eqb_refl]. }
      rewrite F in Hf. exact Hf.
  - rewrite <- F. rewrite in_map_iff. split.
    + intros [c [<- Hc]]. apply filter_In in Hc as [Hc Ek].
      apply pystr_eqb_eq in Ek. right. exists (snd c).
      split; [rewrite Ek; destruct c; exact Hc|].
      rewrite <- Ek. reflexivity.
    + intros [[_ Hno] | [n [Hn ->]]].
      * exfalso. apply Hno.
        assert (Hf : In hit (filter (fun c => pystr_eqb (NOMBRE_DPT r) (fst c)) t))
          by (rewrite F; left; reflexivity).
        apply filter_In in Hf as [Hf Ek]. apply pystr_eqb_eq in Ek.
        rewrite Ek. apply in_map, Hf.
      * exists (NOMBRE_DPT r, n). split; [reflexivity|].
        apply filter_In. split; [exact Hn | apply pystr_eqb_refl].
Qed.

(** The rows of the merged frame, each from one region. *)
Lemma In_gdf_merged (gdf : GeoDataFrame) (df : DataFrame) (row : MergedRow Z) :
  In row (gdf_merged gdf df) <->
  exists r, In r gdf /\
    ((row = mkMerged (normalize (NOMBRE_DPT r)) (to_crs 4326 (geometry r)) None 0 /\
      ~ In (normalize (NOMBRE_DPT r)) (map fst (proyectos_por_depto df))) \/
     (exists n, In (normalize (NOMBRE_DPT r), n) (proyectos_por_depto df) /\
                row = mkMerged (normalize (NOMBRE_DPT r))
                               (to_crs 4326 (geometry r))
                               (Some (normalize (NOMBRE_DPT r))) n)).
Proof.
  unfold gdf_merged, merge_left, normalizar_NOMBRE_DPT.
  rewrite map_map, in_map_iff. split.
  - intros [row0 [<- Hrow0]]. apply in_flat_map in Hrow0 as [r' [Hr' Hrow0]].
    apply in_map_iff in Hr' as [r [<- Hr]]. exists r. split; [exact Hr|].
    apply In_merge_row in Hrow0 as [[-> Hno] | [n [Hn ->]]]; simpl in *.
    + left. split; [reflexivity | exact Hno].
    + right. exists n. split; [exact Hn | reflexivity].
  - intros [r [Hr H]].
    set (r' := {| NOMBRE_DPT := normalize (NOMBRE_DPT r);
                  geometry := geometry r |}).
    assert (Hr' : In r' (map (fun r => {| NOMBRE_DPT := normalize (NOMBRE_DPT r);
                                          geometry := geometry r |}) gdf))
      by (apply in_map_iff; exists r; split; [reflexivity | exact Hr]).
    destruct H as [[-> Hno] | [n [Hn ->]]].
    + exists (mkMerged (NOMBRE_DPT r') (geometry r') None None).
      split; [reflexivity|]. apply in_flat_map. exists r'.
      split; [exact Hr'|]. apply In_merge_row. left.
      split; [reflexivity | exact Hno].
    + exists (mkMerged (NOMBRE_DPT r') (geometry r') (Some (NOMBRE_DPT r'))
                       (Some n)).
      split; [reflexivity|]. apply in_flat_map. exists r'.
      split; [exact Hr'|]. apply In_merge_row. right.
      exists n. split; [exact Hn | reflexivity].
Qed.
End MergedRows.

(** X5.  Every row of the merged frame comes from one region: it bears
    the region's normalised name and its reprojected geometry, and it is
    either a matched row, whose department cell repeats the name and
    whose count is the positive count of a row of the count table with
    that key, or an unmatched row, with a missing department cell and
    the count 0 that [fillna] wrote, the name being no key of the
    table. *)
Theorem gdf_merged_row_shape
  (M : CaseMapping) (G : GeoBackend) (gdf : GeoDataFrame) (df : DataFrame) :
  Forall (fun row =>
            (exists r, In r gdf /\
                       m_NOMBRE_DPT row = normalize (NOMBRE_DPT r) /\
                       m_geometry row = to_crs 4326 (geometry r)) /\
            match m_Departamento row with
            | Some key =>
                key = m_NOMBRE_DPT row /\
                In (key, Cantidad_Proyectos row) (proyectos_por_depto df) /\
                0 < Cantidad_Proyectos row
            | None =>
                Cantidad_Proyectos row = 0 /\
                ~ In (m_NOMBRE_DPT row) (map fst (proyectos_por_depto df))
            end)
         (gdf_merged gdf df).
Proof.
  apply Forall_forall. intros row Hrow.
  apply In_gdf_merged in Hrow as [r [Hr [[-> Hno] | [n [Hn ->]]]]]; simpl.
  - split; [exists r; auto|]. split; [reflexivity | exact Hno].
  - split; [exists r; auto|]. split; [reflexivity|]. split; [exact Hn|].
    pose proof (proyectos_por_depto_positive df) as Hp.
    rewrite Forall_forall in Hp. exact (Hp _ Hn).
Qed.

(** X6.  A region gets a row with a positive count exactly when some
    record's normalised department is the region's normalised name,
    however the spreadsheet spells it and however many regions share the
    name. *)
Theorem region_has_projects_iff_some_record
  (M : CaseMapping) (G : GeoBackend)
  (gdf : GeoDataFrame) (df : DataFrame) (name : pystr) :
  In name (nombres gdf) ->
  existsb (fun row => pystr_eqb (m_NOMBRE_DPT row) name
                      && (0 <? Cantidad_Proyectos row))
          (gdf_merged gdf df)
  = existsb (is_of name) df.
Proof.
  intros Hname. unfold nombres in Hname.
  apply in_map_iff in Hname as [r [Er Hr]].
  destruct (existsb (is_of name) df) eqn:Ex.
  - apply proyectos_por_depto_keys in Ex.
    apply in_map_iff in Ex as [[k n] [Ek Hrow]]. simpl in Ek. subst k.
    apply existsb_exists.
    exists (mkMerged name (to_crs 4326 (geometry r)) (Some name) n).
    split.
    + apply In_gdf_merged. exists r. split; [exact Hr|]. right.
      exists n. rewrite Er. split; [exact Hrow | reflexivity].
    + simpl. rewrite pystr_eqb_refl. simpl. apply Z.ltb_lt.
      pose proof (proyectos_por_depto_positive df) as Hp.
      rewrite Forall_forall in Hp. exact (Hp _ Hrow).
  - destruct (existsb _ (gdf_merged gdf df)) eqn:Em; [|reflexivity].
    exfalso. apply existsb_exists in Em as [row [Hrow Hc]].
    apply andb_true_iff in Hc as [Hn Hc].
    apply pystr_eqb_eq in Hn. apply Z.ltb_lt in Hc.
    apply In_gdf_merged in Hrow as [r0 [_ [[-> _] | [n [Hin ->]]]]];
      simpl in *; [lia|].
    assert (Hk : In name (map fst (proyectos_por_depto df))).
    { rewrite <- Hn. exact (in_map fst _ _ Hin). }
    apply proyectos_por_depto_keys in Hk. congruence.
Qed.

(** Cesar has records under the spelling "Cesar", Meta has none. *)
Lemma region_has_projects_casos :
  In (py "CESAR") (nombres Casos.departamentos) /\
  existsb (fun row => pystr_eqb (m_NOMBRE_DPT row) (py "CESAR")
                      && (0 <? Cantidad_Proyectos row))
          (gdf_merged Casos.departamentos Casos.con_huecos)
  = true.
Proof.
  assert (H : In (py "CESAR") (nombres Casos.departamentos))
    by (right; left; reflexivity).
  split; [exact H|].
  rewrite (region_has_projects_iff_some_record
             latin1 plain_geo Casos.departamentos Casos.con_huecos
             (py "CESAR") H).
  reflexivity.
Defined.

Lemma map_const_repeat {A B : Type} (b : B) (l : list A) :
  map (fun _ => b) l = repeat b (List.length l).
Proof. induction l as [|a l IH]; simpl; [reflexivity | rewrite IH; reflexivity]. Qed.

Lemma len_app {A : Type} (a b : list A) : len (a ++ b) = len a + len b.
Proof. unfold len. rewrite length_app. lia. Qed.

Section MergedCounts.
Context {M : CaseMapping} {G : GeoBackend}.

Lemma names_merge_row (t : list (pystr * Z)) (r : Region) :
  map m_NOMBRE_DPT (merge_row t r)
  = repeat (NOMBRE_DPT r) (rows_for t (NOMBRE_DPT r)).
Proof.
  unfold merge_row, rows_for.
  destruct (filter _ t) as [|hit hits]; [reflexivity|].
  rewrite map_map. simpl m_NOMBRE_DPT. rewrite map_const_repeat.
  reflexivity.
Qed.

(** The rows of one region that count for the metric of line 135 are its
    matched rows, one per row of the table with its key. *)
Lemma positive_rows_merge_row (t : list (pystr * Z)) (r : Region) :
  Forall (fun row => 0 < snd row) t ->
  len (filter (fun row => 0 <? Cantidad_Proyectos row)
              (map (to_crs_row 4326) (map fillna_Cantidad (merge_row t r))))
  = len (filter (fun row => pystr_eqb (NOMBRE_DPT r) (fst row)) t) /\
  filter (fun row : MergedRow Z => 0 <? Cantidad_Proyectos row)
         (map (to_crs_row 4326) (map fillna_Cantidad (merge_row t r)))
  = filter is_matched_row
           (map (to_crs_row 4326) (map fillna_Cantidad (merge_row t r))).
Proof.
  intros Hpos. unfold merge_row.
  destruct (filter (fun row => pystr_eqb (NOMBRE_DPT r) (fst row)) t)
    as [|hit hits] eqn:F; [split; reflexivity|].
  assert (Hhits : Forall (fun row => 0 < snd row) (hit :: hits)).
  { rewrite <- F. apply Forall_forall. intros c Hc.
    apply filter_In in Hc as [Hc _]. rewrite Forall_forall in Hpos.
    exact (Hpos c Hc). }
  clear F. induction Hhits as [|c cs Hc _ [IH1 IH2]]; [split; reflexivity|].
  simpl. apply Z.ltb_lt in Hc. rewrite Hc. simpl in *.
  rewrite !len_cons, IH1, IH2. split; reflexivity.
Qed.

Lemma departamentos_con_proyectos_sum (gdf : GeoDataFrame) (df : DataFrame) :
  departamentos_con_proyectos (gdf_merged gdf df)
  = sum_Z (map (fun name =>
                  len (filter (fun row => pystr_eqb name (fst row))
                              (proyectos_por_depto df)))
               (nombres gdf)) /\
  filter (fun row : MergedRow Z => 0 <? Cantidad_Proyectos row)
         (gdf_merged gdf df)
  = filter is_matched_row (gdf_merged gdf df).
Proof.
  unfold departamentos_con_proyectos, gdf_merged, merge_left, nombres,
    normalizar_NOMBRE_DPT.
  induction gdf as [|r gdf [IH1 IH2]]; [split; reflexivity|].
  cbn [map flat_map]. rewrite !map_app, !filter_app, len_app.
  destruct (positive_rows_merge_row (proyectos_por_depto df)
              {| NOMBRE_DPT := normalize (NOMBRE_DPT r);
                 geometry := geometry r |}
              (proyectos_por_depto_positive df)) as [H1 H2].
  rewrite H1, H2, IH1, IH2. split; reflexivity.
Qed.

(** With distinct keys, a name has one row in the table or none,
    according to whether some record is of that name. *)
Lemma key_rows_NoDup (df : DataFrame) (name : pystr) :
  NoDup (map fst (proyectos_por_depto df)) ->
  len (filter (fun row => pystr_eqb name (fst row)) (proyectos_por_depto df))
  = if existsb (is_of name) df then 1 else 0.
Proof.
  intros Hnd.
  pose proof (proyectos_por_depto_keys df name) as Hk.
  destruct (filter_key_NoDup (proyectos_por_depto df) name Hnd)
    as [E | [hit E]]; rewrite E.
  - destruct (existsb (is_of name) df); [|reflexivity].
    exfalso. destruct Hk as [_ Hk]. specialize (Hk eq_refl).
    apply in_map_iff in Hk as [c [Ec Hc]].
    assert (Hf : In c (filter (fun row => pystr_eqb name (fst row))
                              (proyectos_por_depto df))).
    { apply filter_In. split; [exact Hc|]. rewrite Ec. apply pystr_eqb_refl. }
    rewrite E in Hf. exact Hf.
  - assert (Hf : In hit (filter (fun row => pystr_eqb name (fst row))
                                (proyectos_por_depto df)))
      by (rewrite E; left; reflexivity).
    apply filter_In in Hf as [Hf Ek]. apply pystr_eqb_eq in Ek.
    destruct Hk as [Hk _]. rewrite Hk; [reflexivity|].
    rewrite Ek. apply in_map, Hf.
Qed.
End MergedCounts.

(** X7.  The merged frame lists the regions in their order, each name as
    many times as the count table has rows with that key, and once when
    it has none; so the frame has one row per region plus one for every
    further spelling that normalises to a region's name. *)
Theorem gdf_merged_names_repeat
  (M : CaseMapping) (G : GeoBackend) (gdf : GeoDataFrame) (df : DataFrame) :
  map m_NOMBRE_DPT (gdf_merged gdf df)
  = flat_map (fun name => repeat name (rows_for (proyectos_por_depto df) name))
             (nombres gdf).
Proof.
  rewrite names_gdf_merged. unfold merge_left, nombres, normalizar_NOMBRE_DPT.
  induction gdf as [|r gdf IH]; [reflexivity|].
  cbn [map flat_map]. rewrite map_app, IH, names_merge_row. reflexivity.
Qed.

(** X8.  The metric "Departamentos con Proyectos" counts the matched rows
    of the merged frame: for each region, the rows of the count table
    whose key is the region's normalised name.  It never exceeds the
    number of rows of the frame. *)
Theorem departamentos_con_proyectos_counts_matches
  (M : CaseMapping) (G : GeoBackend) (gdf : GeoDataFrame) (df : DataFrame) :
  departamentos_con_proyectos (gdf_merged gdf df)
  = len (filter is_matched_row (gdf_merged gdf df)) /\
  departamentos_con_proyectos (gdf_merged gdf df)
  = sum_Z (map (fun name =>
                  len (filter (fun row => pystr_eqb name (fst row))
                              (proyectos_por_depto df)))
               (nombres gdf)) /\
  departamentos_con_proyectos (gdf_merged gdf df) <= len (gdf_merged gdf df).
Proof.
  destruct (departamentos_con_proyectos_sum gdf df) as [H1 H2].
  split; [|split; [exact H1|]].
  - unfold departamentos_con_proyectos. rewrite H2. reflexivity.
  - apply len_filter_le.
Qed.

(** X9.  When no two spellings of the spreadsheet normalise to the same
    key, that metric is the number of regions with at least one record
    of their normalised name, and so at most the number of regions. *)
Theorem departamentos_con_proyectos_without_collisions
  (M : CaseMapping) (G : GeoBackend) (gdf : GeoDataFrame) (df : DataFrame) :
  NoDup (map fst (proyectos_por_depto df)) ->
  departamentos_con_proyectos (gdf_merged gdf df)
  = len (filter (fun name => existsb (is_of name) df) (nombres gdf)) /\
  departamentos_con_proyectos (gdf_merged gdf df) <= len gdf.
Proof.
  intros Hnd.
  assert (E : departamentos_con_proyectos (gdf_merged gdf df)
              = len (filter (fun name => existsb (is_of name) df) (nombres gdf))).
  { destruct (departamentos_con_proyectos_sum gdf df) as [H1 _].
    rewrite H1, len_filter_sum. f_equal. apply map_ext. intros name.
    apply key_rows_NoDup, Hnd. }
  split; [exact E|]. rewrite E.
  pose proof (len_filter_le (fun name => existsb (is_of name) df) (nombres gdf)) as H.
  unfold nombres, len in *. rewrite length_map in H. exact H.
Qed.

(** In the spreadsheet with gaps each department is spelt one way; two of
    the three regions have records. *)
Lemma departamentos_con_proyectos_casos :
  NoDup (map fst (proyectos_por_depto Casos.con_huecos)) /\
  departamentos_con_proyectos (gdf_merged Casos.departamentos Casos.con_huecos)
  = 2.
Proof.
  assert (H : NoDup (map fst (proyectos_por_depto Casos.con_huecos))).
  { vm_compute. repeat constructor; simpl; intuition discriminate. }
  split; [exact H|].
  destruct (departamentos_con_proyectos_without_collisions
              latin1 plain_geo Casos.departamentos Casos.con_huecos H)
    as [E _].
  rewrite E. reflexivity.
Defined.

(* ================================================================== *)
(** ** More about the years *)
(* ================================================================== *)

(** What is known of the year table, in one place. *)
Lemma proyectos_por_año_facts (df : DataFrame) :
  StronglySorted Z.lt (map fst (proyectos_por_año df)) /\
  Forall (fun row => 0 < snd row) (proyectos_por_año df) /\
  (forall y, year_total (proyectos_por_año df) y = count_year df y) /\
  (forall y, In y (map fst (proyectos_por_año df)) <->
             In (Some y) (map Año_de_publicación df)) /\
  sum_Z (map snd (proyectos_por_año df)) = len (df_excel_clean df).
Proof.
  destruct (proyectos_por_año_groupby df) as [E Hs].
  destruct (groupby_fold (map Año_de_publicación (df_excel_clean df)) [])
    as [_ [Hp [Hc [Hk Hsum]]]].
  fold (groupby_size (map Año_de_publicación (df_excel_clean df)))
    in Hp, Hc, Hk, Hsum.
  rewrite <- E in Hp, Hc, Hk, Hsum.
  split; [|split; [|split; [|split]]].
  - apply Sorted_StronglySorted; [|exact Hs].
    intros a b c Hab Hbc. exact (Z.lt_trans _ _ _ Hab Hbc).
  - apply Hp. constructor.
  - intros y. rewrite Hc, count_year_clean. unfold year_total. simpl. lia.
  - intros y. rewrite Hk, year_in_clean. simpl. split.
    + intros [[] | [p [Hp' E']]]. rewrite <- E'. apply in_map, Hp'.
    + intros Hin. right. apply in_map_iff in Hin as [p [E' Hp']].
      exists p. auto.
  - rewrite Hsum, len_dropna_clean. simpl. lia.
Qed.

Lemma fold_min_spec (y : Z) (ys : list Z) :
  In (fold_right Z.min y ys) (y :: ys) /\
  Forall (fun x => fold_right Z.min y ys <= x) (y :: ys).
Proof.
  induction ys as [|z ys [Hin Hall]]; simpl.
  - split; [left; reflexivity | repeat constructor; lia].
  - inversion Hall as [|? ? Hy Hys]; subst. split.
    + destruct (Z.min_spec z (fold_right Z.min y ys)) as [[_ ->] | [_ ->]];
        [right; left; reflexivity|].
      simpl in Hin. destruct Hin as [<- | Hin]; [left; reflexivity|].
      right; right; exact Hin.
    + constructor; [lia|]. constructor; [lia|].
      apply Forall_forall. intros x Hx. rewrite Forall_forall in Hys.
      specialize (Hys x Hx). lia.
Qed.

Lemma fold_max_spec (y : Z) (ys : list Z) :
  In (fold_right Z.max y ys) (y :: ys) /\
  Forall (fun x => x <= fold_right Z.max y ys) (y :: ys).
Proof.
  induction ys as [|z ys [Hin Hall]]; simpl.
  - split; [left; reflexivity | repeat constructor; lia].
  - inversion Hall as [|? ? Hy Hys]; subst. split.
    + destruct (Z.max_spec z (fold_right Z.max y ys)) as [[_ ->] | [_ ->]];
        [|right; left; reflexivity].
      simpl in Hin. destruct Hin as [<- | Hin]; [left; reflexivity|].
      right; right; exact Hin.
    + constructor; [lia|]. constructor; [lia|].
      apply Forall_forall. intros x Hx. rewrite Forall_forall in Hys.
      specialize (Hys x Hx). lia.
Qed.

Lemma sorted_last_greatest (l : list Z) (d x : Z) :
  StronglySorted Z.lt l -> In x l -> x <= last l d.
Proof.
  intros Hs. revert x.
  induction Hs as [|k l Hs IH Hall]; intros x Hin; [contradiction|].
  destruct l as [|k' l]; simpl in Hin.
  - destruct Hin as [<- | []]. simpl. lia.
  - change (last (k :: k' :: l) d) with (last (k' :: l) d).
    destruct Hin as [<- | Hin]; [|apply IH, Hin].
    inversion Hall; subst.
    assert (k' <= last (k' :: l) d) by (apply IH; left; reflexivity). lia.
Qed.

Lemma last_In (l : list Z) (d : Z) : l <> [] -> In (last l d) l.
Proof.
  induction l as [|k l IH]; intros Hne; [contradiction|].
  destruct l as [|k' l]; [left; reflexivity|].
  right. apply IH. discriminate.
Qed.

(** X10.  The metric "Rango de Años" is "N/A" exactly when no record has
    a year, and then the year table is empty; otherwise its two ends are
    the first and the last year of the year table, each the year of some
    record, and every year of every record lies between them. *)
Theorem rango_de_anios_bounds (df : DataFrame) :
  match rango_de_años df with
  | None =>
      proyectos_por_año df = [] /\
      Forall (fun p => Año_de_publicación p = None) df
  | Some (lo, hi) =>
      hd_error (map fst (proyectos_por_año df)) = Some lo /\
      last (map fst (proyectos_por_año df)) lo = hi /\
      lo <= hi /\
      In (Some lo) (map Año_de_publicación df) /\
      In (Some hi) (map Año_de_publicación df) /\
      Forall (fun p => match Año_de_publicación p with
                       | Some y => lo <= y <= hi
                       | None => True
                       end) df
  end.
Proof.
  destruct (proyectos_por_año_facts df) as [Hs [_ [_ [Hk _]]]].
  unfold rango_de_años.
  destruct (dropna (map Año_de_publicación df)) as [|y ys] eqn:E.
  - assert (Hno : forall y, ~ In (Some y) (map Año_de_publicación df)).
    { intros y Hy. apply In_dropna in Hy. rewrite E in Hy. exact Hy. }
    split.
    + destruct (proyectos_por_año df) as [|[k n] t]; [reflexivity|].
      exfalso. apply (Hno k), Hk. left; reflexivity.
    + apply Forall_forall. intros p Hp.
      destruct (Año_de_publicación p) as [y|] eqn:Ey; [|reflexivity].
      exfalso. apply (Hno y). rewrite <- Ey. apply in_map, Hp.
  - destruct (fold_min_spec y ys) as [Hlo Hlow].
    destruct (fold_max_spec y ys) as [Hhi Hupp].
    set (lo := fold_right Z.min y ys) in *.
    set (hi := fold_right Z.max y ys) in *.
    rewrite <- E in Hlo, Hhi, Hlow, Hupp.
    rewrite Forall_forall in Hlow, Hupp.
    assert (Hlo' : In lo (map fst (proyectos_por_año df)))
      by (apply Hk, In_dropna, Hlo).
    assert (Hhi' : In hi (map fst (proyectos_por_año df)))
      by (apply Hk, In_dropna, Hhi).
    assert (Hbound : forall k, In k (map fst (proyectos_por_año df)) ->
                               lo <= k <= hi).
    { intros k Hin. apply Hk, In_dropna in Hin.
      split; [apply Hlow | apply Hupp]; exact Hin. }
    split; [|split; [|split; [|split; [|split]]]].
    + destruct (map fst (proyectos_por_año df)) as [|k0 ks] eqn:Ek;
        [contradiction|].
      simpl. f_equal.
      inversion Hs as [|? ? _ Hall]; subst.
      rewrite Forall_forall in Hall.
      assert (lo <= k0) by (apply Hbound; left; reflexivity).
      destruct Hlo' as [-> | Hin]; [reflexivity|].
      specialize (Hall lo Hin). lia.
    + pose proof (sorted_last_greatest _ lo hi Hs Hhi') as H1.
      assert (Hne : map fst (proyectos_por_año df) <> [])
        by (intros H0; rewrite H0 in Hlo'; exact Hlo').
      pose proof (Hbound _ (last_In _ lo Hne)) as H2. lia.
    + apply (Hbound lo Hlo').
    + apply In_dropna, Hlo.
    + apply In_dropna, Hhi.
    + apply Forall_forall. intros p Hp.
      destruct (Año_de_publicación p) as [k|] eqn:Ey; [|exact I].
      assert (Hin : In k (dropna (map Año_de_publicación df))).
      { apply In_dropna. rewrite <- Ey. apply in_map, Hp. }
      split; [apply Hlow | apply Hupp]; exact Hin.
Qed.

Lemma len_filter_perm {A : Type} (f : A -> bool) (l l' : list A) :
  Permutation l l' -> len (filter f l) = len (filter f l').
Proof.
  induction 1 as [|x l l' _ IH|x y l|l l' l'' _ IH1 _ IH2]; simpl.
  - reflexivity.
  - destruct (f x); rewrite ?len_cons, IH; reflexivity.
  - destruct (f x), (f y); rewrite ?len_cons; reflexivity.
  - congruence.
Qed.

(** Two year tables in increasing order, with positive counts and the
    same total for every year, are the same table. *)
Lemma year_table_ext (t1 t2 : list (Z * Z)) :
  StronglySorted Z.lt (map fst t1) -> StronglySorted Z.lt (map fst t2) ->
  Forall (fun row => 0 < snd row) t1 -> Forall (fun row => 0 < snd row) t2 ->
  (forall y, year_total t1 y = year_total t2 y) ->
  t1 = t2.
Proof.
  revert t2. induction t1 as [|[k1 n1] t1 IH]; intros [|[k2 n2] t2] Hs1 Hs2 Hp1 Hp2 Hy.
  - reflexivity.
  - exfalso. specialize (Hy k2). inversion Hs2; subst. inversion Hp2; subst.
    unfold year_total in Hy. simpl in Hy. rewrite Z.eqb_refl in Hy.
    simpl in Hy. fold (year_total t2 k2) in Hy.
    rewrite year_total_above in Hy by assumption. simpl in *. lia.
  - exfalso. specialize (Hy k1). inversion Hs1; subst. inversion Hp1; subst.
    unfold year_total in Hy. simpl in Hy. rewrite Z.eqb_refl in Hy.
    simpl in Hy. fold (year_total t1 k1) in Hy.
    rewrite year_total_above in Hy by assumption. simpl in *. lia.
  - simpl in Hs1, Hs2.
    inversion Hs1 as [|? ? Hs1' Hall1]; subst.
    inversion Hs2 as [|? ? Hs2' Hall2]; subst.
    inversion Hp1 as [|? ? Hn1 Hp1']; subst.
    inversion Hp2 as [|? ? Hn2 Hp2']; subst. simpl in Hn1, Hn2.
    assert (Hhead : forall (k n : Z) (t : list (Z * Z)) (y : Z),
               year_total ((k, n) :: t) y
               = (if k =? y then n else 0) + year_total t y).
    { intros k n t y. unfold year_total. simpl.
      destruct (k =? y); simpl; lia. }
    assert (Ek : k1 = k2).
    { destruct (Z.lt_trichotomy k1 k2) as [Hlt | [Heq | Hgt]]; [|exact Heq|].
      - exfalso. pose proof (Hy k1) as H. rewrite !Hhead, Z.eqb_refl in H.
        rewrite (year_total_above k1 t1) in H by exact Hall1.
        destruct (k2 =? k1) eqn:E; [apply Z.eqb_eq in E; lia|].
        rewrite (year_total_above k1 t2) in H; [lia|].
        rewrite Forall_forall in *. intros x Hx. specialize (Hall2 x Hx). lia.
      - exfalso. pose proof (Hy k2) as H. rewrite !Hhead, Z.eqb_refl in H.
        rewrite (year_total_above k2 t2) in H by exact Hall2.
        destruct (k1 =? k2) eqn:E; [apply Z.eqb_eq in E; lia|].
        rewrite (year_total_above k2 t1) in H; [lia|].
        rewrite Forall_forall in *. intros x Hx. specialize (Hall1 x Hx). lia. }
    subst k2.
    assert (En : n1 = n2).
    { pose proof (Hy k1) as H. rewrite !Hhead, Z.eqb_refl in H.
      rewrite (year_total_above k1 t1), (year_total_above k1 t2) in H
        by assumption. lia. }
    subst n2. f_equal. apply IH; try assumption.
    intros y. pose proof (Hy y) as H. rewrite !Hhead in H. lia.
Qed.

(** X11.  The year table does not depend on the order of the rows of the
    spreadsheet: two spreadsheets with the same rows in different orders
    give the same table. *)
Theorem proyectos_por_anio_row_order (df df' : DataFrame) :
  Permutation df df' -> proyectos_por_año df = proyectos_por_año df'.
Proof.
  intros Hperm.
  destruct (proyectos_por_año_facts df) as [Hs [Hp [Hc _]]].
  destruct (proyectos_por_año_facts df') as [Hs' [Hp' [Hc' _]]].
  apply year_table_ext; try assumption.
  intros y. rewrite Hc, Hc'. unfold count_year.
  apply len_filter_perm, Hperm.
Qed.

(** The spreadsheet with gaps and its reordering give the same table. *)
Lemma proyectos_por_anio_row_order_casos :
  Permutation Casos.con_huecos Casos.con_huecos_reordenado /\
  proyectos_por_año Casos.con_huecos_reordenado = [(2019, 2); (2022, 1)].
Proof.
  assert (H : Permutation Casos.con_huecos Casos.con_huecos_reordenado).
  { unfold Casos.con_huecos, Casos.con_huecos_reordenado.
    eapply perm_trans; [apply perm_skip, perm_skip, perm_swap|].
    eapply perm_trans; [apply perm_skip, perm_swap|].
    eapply perm_trans; [apply perm_swap|].
    eapply perm_trans; [apply perm_skip, perm_skip, perm_swap|].
    apply perm_skip, perm_swap. }
  split; [exact H|].
  rewrite <- (proyectos_por_anio_row_order _ _ H). reflexivity.
Defined.

(** X12.  Every year of a record has its row in the year table, and only
    those years have one; the table has at most as many rows as there
    are records with a year. *)
Theorem proyectos_por_anio_covers_years (df : DataFrame) :
  Forall (fun p => match Año_de_publicación p with
                   | Some y => In y (map fst (proyectos_por_año df))
                   | None => True
                   end) df /\
  Forall (fun y => In (Some y) (map Año_de_publicación df))
         (map fst (proyectos_por_año df)) /\
  len (proyectos_por_año df) <= len (df_excel_clean df).
Proof.
  destruct (proyectos_por_año_facts df) as [_ [Hp [_ [Hk Hsum]]]].
  split; [|split].
  - apply Forall_forall. intros p Hin.
    destruct (Año_de_publicación p) as [y|] eqn:E; [|exact I].
    apply Hk. rewrite <- E. apply in_map, Hin.
  - apply Forall_forall. intros y Hy. apply Hk, Hy.
  - rewrite <- Hsum. clear -Hp.
    induction Hp as [|row t Hrow _ IH]; simpl; [reflexivity|].
    rewrite len_cons. lia.
Qed.

(* ================================================================== *)
(** ** More about the loader and the page *)
(* ================================================================== *)



(** X14.  When the boundary file cannot be read, the spreadsheet is not
    consulted: whatever [read_excel] would do, the loader shows the
    message of the first exception and returns the sentinel, and the page
    is that message followed by the five widgets of the diagnostic
    panel. *)
Theorem cargar_datos_first_failure
  (M : CaseMapping) (G : GeoBackend) (T : TitleCase)
  (w : World) (e : string) :
  read_file w "datos/departamentos/Colombia.geo.json" = Raised e ->
  cargar_datos w []
  = (Returned (None, None),
     [st_error ("❌ Error al cargar los datos: " ++ e)]) /\
  app w []
  = (Returned tt,
     [st_error ("❌ Error al cargar los datos: " ++ e);
      st_error "⚠️ No se pudieron cargar los datos. Verifica que los archivos existan en las rutas especificadas:";
      st_code "datos/departamentos/Colombia.geo.json";
      st_code "datos/proyectos/proyecto_colombia.xlsx";
      st_info "📝 Asegúrate de que:";
      st_markdown "- El archivo GeoJSON esté en la ruta correcta
- El archivo Excel tenga la columna 'Departamento' y 'Año de publicación'
- Las rutas de las carpetas sean exactamente como se especifican"]).
Proof.
  intros Hg.
  assert (E : cargar_datos w []
              = (Returned (None, None),
                 [st_error ("❌ Error al cargar los datos: " ++ e)]))
    by (rewrite cargar_datos_cases, Hg; reflexivity).
  split; [exact E|].
  unfold app, bind at 1. rewrite E. reflexivity.
Qed.

(** The boundary file is bad and the spreadsheet is fine: the page shows
    the message of the boundary file. *)
Lemma cargar_datos_sin_geojson :
  nth_error (snd (app Casos.sin_geojson [])) 0
  = Some (st_error "❌ Error al cargar los datos: bad GeoJSON") /\
  List.length (snd (app Casos.sin_geojson [])) = 6%nat.
Proof.
  destruct (cargar_datos_first_failure latin1 plain_geo latin1_title
                                       Casos.sin_geojson "bad GeoJSON" eq_refl)
    as [_ Ea].
  rewrite Ea. split; reflexivity.
Defined.

(* ================================================================== *)
(** ** The summary table *)
(* ================================================================== *)

Lemma sort_desc_of_sorted (t : list (pystr * Z)) :
  StronglySorted more_first t -> sort_desc t = t.
Proof.
  induction 1 as [|x t Hs IH Hall]; simpl; [reflexivity|].
  rewrite IH. destruct t as [|y t]; [reflexivity|]. simpl.
  inversion Hall as [|? ? Hxy _]; subst. unfold more_first in Hxy.
  apply Z.leb_le in Hxy. rewrite Hxy. reflexivity.
Qed.

(** X15.  The summary table shows the rows of the count table with
    title-cased keys: the same counts in the same decreasing order.  The
    label of the fourth metric is the key of one of its rows, with a
    count no row exceeds, and there is no label exactly when the table
    is empty.  Its counts add up to the number of records that have a
    department. *)
Theorem tabla_resumen_same_counts
  (M : CaseMapping) (T : TitleCase) (df : DataFrame) :
  map snd (tabla_resumen (proyectos_por_depto df))
  = map snd (proyectos_por_depto df) /\
  Permutation (tabla_resumen (proyectos_por_depto df))
              (map (fun row => (title (fst row), snd row))
                   (proyectos_por_depto df)) /\
  StronglySorted more_first (tabla_resumen (proyectos_por_depto df)) /\
  match departamento_con_mas_proyectos (proyectos_por_depto df) with
  | Some label =>
      exists n, In (label, n) (tabla_resumen (proyectos_por_depto df)) /\
                Forall (fun row => snd row <= n)
                       (tabla_resumen (proyectos_por_depto df))
  | None => tabla_resumen (proyectos_por_depto df) = []
  end /\
  sum_Z (map snd (tabla_resumen (proyectos_por_depto df)))
  = len (filter has_Departamento df).
Proof.
  assert (Hs : StronglySorted more_first (proyectos_por_depto df)).
  { unfold proyectos_por_depto, value_counts.
    apply map_key_sorted, sort_desc_sorted. }
  assert (E : tabla_resumen (proyectos_por_depto df)
              = map (fun row => (title (fst row), snd row))
                    (proyectos_por_depto df)).
  { unfold tabla_resumen. apply sort_desc_of_sorted, map_key_sorted, Hs. }
  assert (Ec : map snd (tabla_resumen (proyectos_por_depto df))
               = map snd (proyectos_por_depto df)).
  { rewrite E, map_map. reflexivity. }
  split; [exact Ec|]. split; [rewrite E; reflexivity|].
  split; [apply sort_desc_sorted|]. split.
  - pose proof (sort_desc_sorted
                  (map (fun row => (title (fst row), snd row))
                       (proyectos_por_depto df))) as Hst.
    fold (tabla_resumen (proyectos_por_depto df)) in Hst.
    rewrite E in *. unfold departamento_con_mas_proyectos.
    destruct (proyectos_por_depto df) as [|top rest]; [reflexivity|].
    simpl in *. exists (snd top). split; [left; reflexivity|].
    inversion Hst as [|? ? _ Hall]; subst.
    constructor; [simpl; lia | exact Hall].
  - rewrite Ec. unfold proyectos_por_depto. rewrite map_map. simpl.
    rewrite <- weighted_one, weighted_value_counts.
    rewrite sum_dropna_Departamento, len_filter_sum.
    f_equal. apply map_ext. intros p. unfold has_Departamento.
    destruct (Departamento p); reflexivity.
Qed.

(** X16.  With no record and at least one region, every region gets
    exactly one row, in the order of the regions, with the count 0 and a
    missing department cell, and the metric of line 135 shows 0. *)
Theorem gdf_merged_without_records
  (M : CaseMapping) (G : GeoBackend) (gdf : GeoDataFrame) :
  gdf <> [] ->
  name_counts (gdf_merged gdf []) = map (fun name => (name, 0)) (nombres gdf) /\
  Forall (fun row => m_Departamento row = None) (gdf_merged gdf []) /\
  departamentos_con_proyectos (gdf_merged gdf []) = 0.
Proof.
  intros _. split; [|split].
  - rewrite gdf_merged_without_collisions by constructor. reflexivity.
  - apply Forall_forall. intros row Hrow.
    apply In_gdf_merged in Hrow as [r [_ [[-> _] | [n [Hn _]]]]];
      [reflexivity | contradiction].
  - destruct (departamentos_con_proyectos_sum gdf []) as [E _].
    rewrite E. clear E. simpl.
    induction (nombres gdf) as [|n l IH]; [reflexivity|].
    simpl. rewrite IH. reflexivity.
Qed.

(** The two regions of the specification's example, without records. *)
Lemma gdf_merged_without_records_ejemplo :
  Ejemplo.regiones <> [] /\
  name_counts (gdf_merged Ejemplo.regiones [])
  = [(py "ANTIOQUIA", 0); (py "CHOCO", 0)].
Proof.
  assert (H : Ejemplo.regiones <> []) by discriminate.
  split; [exact H|].
  destruct (gdf_merged_without_records latin1 plain_geo Ejemplo.regiones H)
    as [E _].
  rewrite E. reflexivity.
Defined.

(** C8, as amended.  With no record and at least one region, the merged
    frame has one row per region, in order, each with the count 0, the
    year table is empty and the total is 0: the page shows the map of
    those rows, an empty line chart, the metrics 0, 0 and no range, no
    top department and an empty summary table. *)
Theorem no_records_every_region_zero
  (M : CaseMapping) (G : GeoBackend) (T : TitleCase)
  (gdf : GeoDataFrame) (w : World) (page : list Widget) :
  gdf <> [] ->
  name_counts (gdf_merged gdf []) = map (fun name => (name, 0)) (nombres gdf) /\
  proyectos_por_año [] = [] /\
  total_de_proyectos [] = 0 /\
  tablero gdf [] w page
  = (Returned tt,
     page ++ [st_plotly_chart_mapa (gdf_merged gdf []);
              st_plotly_chart_linea [];
              st_metric "Total de Proyectos" 0;
              st_metric "Departamentos con Proyectos" 0;
              st_metric_rango "Rango de Años" None;
              st_dataframe []]).
Proof.
  intros Hgdf.
  split; [rewrite gdf_merged_without_collisions by constructor; reflexivity|].
  split; [reflexivity|]. split; [reflexivity|].
  rewrite (tablero_runs gdf [] w page eq_refl Hgdf).
  assert (E0 : departamentos_con_proyectos (gdf_merged gdf []) = 0).
  { destruct (departamentos_con_proyectos_sum gdf []) as [E _].
    rewrite E. clear E. simpl.
    induction (nombres gdf) as [|n l IH]; [reflexivity|].
    simpl. rewrite IH. reflexivity. }
  rewrite E0. reflexivity.
Qed.

(** The regions of the specification's example and a sheet without rows:
    both files load and the page shows the total 0. *)
Lemma no_records_ejemplo :
  Ejemplo.regiones <> [] /\
  nth_error (snd (app Ejemplo.sin_proyectos [])) 2
  = Some (st_metric "Total de Proyectos" 0) /\
  fst (app Ejemplo.sin_proyectos []) = Returned tt.
Proof.
  assert (H : Ejemplo.regiones <> []) by discriminate.
  split; [exact H|].
  destruct (no_records_every_region_zero latin1 plain_geo latin1_title
              Ejemplo.regiones Ejemplo.sin_proyectos [] H)
    as [_ [_ [_ Et]]].
  change (app Ejemplo.sin_proyectos [])
    with (tablero Ejemplo.regiones [] Ejemplo.sin_proyectos []).
  rewrite Et. split; reflexivity.
Defined.

(** C8, as stated, fails: a boundary file without features loads as a
    frame without the column [NOMBRE_DPT], so with no region and no
    record line 47 raises and the page stays empty: no merged frame, no
    year table and no total are shown. *)
Lemma no_page_without_regions :
  fst (app Ejemplo.vacio []) = Raised "'NOMBRE_DPT'" /\
  snd (app Ejemplo.vacio []) = [] /\
  ~ In (st_metric "Total de Proyectos" 0) (snd (app Ejemplo.vacio [])).
Proof. split; [reflexivity|]. split; [reflexivity|]. intros []. Qed.

(** X20.  A successful load does not yet give a page.  When the sheet has
    rows and none has a department, line 46 raises; when the boundary
    frame has no feature, line 47 raises.  Either way the exception is
    not caught: the script raises, and neither a chart nor the
    diagnostic panel is shown. *)
Theorem tablero_raises_before_showing
  (M : CaseMapping) (G : GeoBackend) (T : TitleCase)
  (w : World) (page : list Widget) (gdf : GeoDataFrame) (df : DataFrame) :
  read_file w "datos/departamentos/Colombia.geo.json" = Returned gdf ->
  read_excel w "datos/proyectos/proyecto_colombia.xlsx" = Returned df ->
  Departamento_sin_cadenas df = true \/ gdf = [] ->
  exists e, app w page = (Raised e, page).
Proof.
  intros Hg Hd Hraise.
  assert (E : cargar_datos w page = (Returned (Some gdf, Some df), page))
    by (rewrite cargar_datos_cases, Hg, Hd; reflexivity).
  unfold app, bind at 1. rewrite E.
  change (pagina (fst (Some gdf, Some df)) (snd (Some gdf, Some df)))
    with (tablero gdf df).
  rewrite tablero_raises.
  destruct (Departamento_sin_cadenas df); [eauto|].
  destruct Hraise as [H | ->]; [discriminate H | eauto].
Qed.

(** A sheet with years and no department: both files load and the script
    raises at line 46 with an empty page. *)
Lemma tablero_raises_sin_departamentos :
  Departamento_sin_cadenas Ejemplo.por_años = true /\
  snd (app Ejemplo.sin_departamentos []) = [] /\
  fst (app Ejemplo.sin_departamentos []) <> Returned tt.
Proof.
  destruct (tablero_raises_before_showing
              latin1 plain_geo latin1_title Ejemplo.sin_departamentos []
              Ejemplo.regiones Ejemplo.por_años eq_refl eq_refl
              (or_introl eq_refl)) as [e E].
  split; [reflexivity|]. rewrite E. split; [reflexivity | discriminate].
Defined.

(* ================================================================== *)
(** ** Processing again, and the order of the spreadsheet *)
(* ================================================================== *)

(** X17.  Line 47 may run again on the frame it has already rewritten:
    for a case table that obeys the two laws, processing the processed
    frame gives the same frame, the same merged frame and the same
    tables as the first time. *)
Theorem procesar_again
  (M : CaseMapping) (L : CaseMappingLaws M) (G : GeoBackend)
  (gdf : GeoDataFrame) (df : DataFrame) :
  procesar (v_gdf (procesar gdf df)) df = procesar gdf df.
Proof.
  assert (E : normalizar_NOMBRE_DPT (normalizar_NOMBRE_DPT gdf)
              = normalizar_NOMBRE_DPT gdf).
  { unfold normalizar_NOMBRE_DPT. rewrite map_map. apply map_ext.
    intros r. simpl. rewrite normalize_idem. reflexivity. }
  unfold procesar. simpl. unfold gdf_merged. rewrite E. reflexivity.
Qed.

(** The frame with the name "Antioquia": once processed, processing it
    again changes nothing. *)
Lemma procesar_again_sin_normalizar :
  CaseMappingLaws latin1 /\
  v_gdf (procesar (v_gdf (procesar Ejemplo.sin_normalizar Ejemplo.proyectos))
                  Ejemplo.proyectos)
  = v_gdf (procesar Ejemplo.sin_normalizar Ejemplo.proyectos).
Proof.
  split; [exact latin1_laws|].
  rewrite (procesar_again latin1 latin1_laws plain_geo
                          Ejemplo.sin_normalizar Ejemplo.proyectos).
  reflexivity.
Defined.

Section RowOrder.
Context {M : CaseMapping} {G : GeoBackend}.

Lemma count_for_perm (df df' : DataFrame) (name : pystr) :
  Permutation df df' -> count_for df name = count_for df' name.
Proof. intros H. unfold count_for. apply len_filter_perm, H. Qed.

(** Reordering the spreadsheet permutes the keys of the count table. *)
Lemma proyectos_por_depto_keys_perm (df df' : DataFrame) :
  Permutation df df' ->
  Permutation (map fst (proyectos_por_depto df))
              (map fst (proyectos_por_depto df')).
Proof.
  intros H. unfold proyectos_por_depto. rewrite !map_map. simpl.
  rewrite <- !(map_map fst normalize). apply Permutation_map.
  destruct (value_counts_keys (map Departamento df)) as [Hnd Hk].
  destruct (value_counts_keys (map Departamento df')) as [Hnd' Hk'].
  apply NoDup_Permutation; [exact Hnd | exact Hnd'|].
  intros k. rewrite Hk, Hk'.
  split; apply Permutation_in, Permutation_map; [exact H | symmetry; exact H].
Qed.

Lemma gdf_merged_cons (r : Region) (gdf : GeoDataFrame) (df : DataFrame) :
  gdf_merged (r :: gdf) df = gdf_merged [r] df ++ gdf_merged gdf df.
Proof.
  unfold gdf_merged, merge_left. simpl. rewrite app_nil_r, !map_app.
  reflexivity.
Qed.

(** The rows of one region, filtered by a name: all of them or none. *)
Lemma sum_rows_of_region (r : Region) (df : DataFrame) (name : pystr) :
  sum_Z (counts (filter (fun row => pystr_eqb (m_NOMBRE_DPT row) name)
                        (gdf_merged [r] df)))
  = if pystr_eqb name (normalize (NOMBRE_DPT r)) then count_for df name else 0.
Proof.
  assert (Hall : forall row, In row (gdf_merged [r] df) ->
                             m_NOMBRE_DPT row = normalize (NOMBRE_DPT r)).
  { intros row Hrow.
    apply In_gdf_merged in Hrow as [r0 [[<- | []] [[-> _] | [n [_ ->]]]]];
      reflexivity. }
  destruct (pystr_eqb name (normalize (NOMBRE_DPT r))) eqn:E.
  - apply pystr_eqb_eq in E.
    rewrite forallb_filter_id.
    + pose proof (sum_counts_by_region [r] df) as H. simpl in H.
      rewrite H, E. lia.
    + apply forallb_forall. intros row Hrow.
      rewrite (Hall row Hrow), E. apply pystr_eqb_refl.
  - assert (F : filter (fun row => pystr_eqb (m_NOMBRE_DPT row) name)
                       (gdf_merged [r] df) = []).
    { induction (gdf_merged [r] df) as [|row rows IH]; [reflexivity|].
      simpl. rewrite (Hall row (or_introl eq_refl)), pystr_eqb_sym, E.
      apply IH. intros row' H'. apply Hall. right. exact H'. }
    rewrite F. reflexivity.
Qed.
End RowOrder.

(** X18.  When each department is spelt one way, the names and counts of
    the merged frame do not depend on the order of the rows of the
    spreadsheet. *)
Theorem gdf_merged_row_order
  (M : CaseMapping) (G : GeoBackend)
  (gdf : GeoDataFrame) (df df' : DataFrame) :
  NoDup (map fst (proyectos_por_depto df)) ->
  Permutation df df' ->
  name_counts (gdf_merged gdf df) = name_counts (gdf_merged gdf df').
Proof.
  intros Hnd Hperm.
  assert (Hnd' : NoDup (map fst (proyectos_por_depto df'))).
  { apply (Permutation_NoDup (proyectos_por_depto_keys_perm df df' Hperm)).
    exact Hnd. }
  rewrite !gdf_merged_without_collisions by assumption.
  apply map_ext. intros name. f_equal. apply count_for_perm, Hperm.
Qed.

(** The spreadsheet with gaps and its reordering give the same counts
    per region. *)
Lemma gdf_merged_row_order_casos :
  NoDup (map fst (proyectos_por_depto Casos.con_huecos)) /\
  name_counts (gdf_merged Casos.departamentos Casos.con_huecos_reordenado)
  = [(py "LA GUAJIRA", 1); (py "CESAR", 2); (py "META", 0)].
Proof.
  assert (Hnd : NoDup (map fst (proyectos_por_depto Casos.con_huecos))).
  { vm_compute. repeat constructor; simpl; intuition discriminate. }
  assert (H : Permutation Casos.con_huecos Casos.con_huecos_reordenado).
  { unfold Casos.con_huecos, Casos.con_huecos_reordenado.
    eapply perm_trans; [apply perm_skip, perm_skip, perm_swap|].
    eapply perm_trans; [apply perm_skip, perm_swap|].
    eapply perm_trans; [apply perm_swap|].
    eapply perm_trans; [apply perm_skip, perm_skip, perm_swap|].
    apply perm_skip, perm_swap. }
  split; [exact Hnd|].
  rewrite <- (gdf_merged_row_order latin1 plain_geo Casos.departamentos
                                   _ _ Hnd H).
  reflexivity.
Defined.

(** X19.  Whatever the spellings, the counts of the rows that bear one
    name add up to the number of records of that normalised name, once
    for every region with that name: a region split over several rows
    still shows all its records, and two regions with one name each show
    them all. *)
Theorem rows_of_a_name_add_up
  (M : CaseMapping) (G : GeoBackend)
  (gdf : GeoDataFrame) (df : DataFrame) (name : pystr) :
  sum_Z (counts (filter (fun row => pystr_eqb (m_NOMBRE_DPT row) name)
                        (gdf_merged gdf df)))
  = count_for df name * len (filter (pystr_eqb name) (nombres gdf)).
Proof.
  induction gdf as [|r gdf IH]; [unfold len; simpl; lia|].
  rewrite gdf_merged_cons, filter_app. unfold counts in *.
  rewrite map_app, sum_Z_app, IH.
  fold (counts (filter (fun row => pystr_eqb (m_NOMBRE_DPT row) name)
                       (gdf_merged [r] df))).
  rewrite sum_rows_of_region. simpl.
  destruct (pystr_eqb name (normalize (NOMBRE_DPT r))); rewrite ?len_cons; lia.
Qed.
